(** * JetLag stage orchestration and the Goodie actor

    A shallow embedding of [JetLagStage] (gesture routing, the per-frame
    [render], [onScreenChange], [endLevel] and the music controls) and of the
    [Goodie] actor, followed by the properties the specification states about
    them.

    Conventions of the embedding.
    - A JavaScript [number] is an IEEE 754 binary64 value: [float], with the
      operators [-], [+], [/], [<] and [!=] of the source read as
      [PrimFloat.sub], [PrimFloat.add], [PrimFloat.div], [PrimFloat.ltb] and
      the negation of [PrimFloat.eqb].
    - Objects the stage only holds references to (scenes, sounds, the
      projectile pool) are identified by an [ObjId]; [new] takes the next
      unused identifier and does nothing else.  Function values (scene
      builders, queued events) are identified by a [Closure].
    - A field the source tests against, or sets to, [null] is an [option];
      [world], [hud], [score], [background] and [foreground] are not: the
      constructor's comment makes a stage usable only after [setScore] and
      [onScreenChange].
    - Every call that leaves the class is recorded, in order, in a trace of
      [Event]s.  Calls into scenes, the level manager, scene builders and
      queued events run game code that holds a reference to the stage, so
      their effect on the program state is whatever the environment [Env]
      says.  Calls to the device, the renderer and the loggers are recorded
      and leave the program state alone.
    - A stage method is a function from the program state to a [Result]: the
      value returned, the state reached and the calls made, or the reason why
      it did not return (a [TypeError], or a queue loop that outran its
      bound) with the state and the calls up to there. *)

From Stdlib Require Import Floats String.
From stdpp Require Import base option list gmap.

Module JetLagStage.

(** ** Program state *)

Definition ObjId := nat.
Definition Closure := nat.

(** The fields of [Score] that the stage reads and writes. *)
Record Score := mkScore {
  loseCountDownRemaining : float;
  winCountRemaining : float;
  stopWatchProgress : float
}.

(** The fields of [JetLagStage]; [debugMode] is [this.config.debugMode]. *)
Record Stage := mkStage {
  world : ObjId;
  hud : ObjId;
  overlay : option ObjId;
  gestureHudFirst : bool;
  backgroundColor : float;
  welcomeSceneBuilder : option Closure;
  winSceneBuilder : option Closure;
  loseSceneBuilder : option Closure;
  pauseSceneBuilder : option Closure;
  score : Score;
  background : ObjId;
  foreground : ObjId;
  music : option ObjId;
  musicPlaying : bool;
  projectilePool : option ObjId;
  debugMode : bool
}.

(** The program state: the stage, the two event queues of every [WorldScene]
    (an array is identified with the world that owns it), and the allocator. *)
Record Machine := mkMachine {
  stage : Stage;
  oneTimeEvents : gmap ObjId (list Closure);
  repeatEvents : gmap ObjId (list Closure);
  nextId : ObjId
}.

(** ** Events *)

(** The stage field through which the receiver of a call was reached. *)
Inductive Recv := ROverlay | RHud | RWorld | RBackground | RForeground.

Inductive Gesture := Tap | PanStart | PanMove | PanStop | TouchDown | TouchUp.

Inductive SceneKind := WorldScene | OverlayScene | ParallaxScene.

Inductive Event :=
(* calls that run game code *)
| EGesture (r : Recv) (o : ObjId) (g : Gesture) (screenX screenY : float)
| ESwipe (r : Recv) (o : ObjId) (screenX0 screenY0 screenX1 screenY1 time : float)
| ESceneRender (r : Recv) (o : ObjId) (elapsedTime : float)
| EParallaxRender (r : Recv) (o : ObjId) (camera : ObjId) (elapsedTime : float)
| EHandleTilt (w : ObjId) (x y : float)
| EAdvanceWorld (w : ObjId) (timestep velocityIterations positionIterations : float)
| EAdjustCamera (w : ObjId)
| EBuilder (b : Closure) (o : ObjId)
| ERunEvent (e : Closure)
| EAdvanceLevel
| ERepeatLevel
(* allocation, device, renderer and logger calls *)
| ENew (k : SceneKind) (o : ObjId)
| ESetFrameColor (color : float)
| EMusicPlay (s : ObjId)
| EMusicStop (s : ObjId)
| EConsoleLog (msg : string)
| EScreenToMeters (r : Recv) (o : ObjId) (screenX screenY : float)
| ELoggerInfo (r : Recv) (x y : float)
| EAccelerometerGet
| EClearLevelFacts
(* entry of a stage method called by another stage method *)
| EEndLevel (win : bool).

Definition Trace := list Event.

(** What the code outside the class does. *)
Record Env := mkEnv {
  (* effect of a call that runs game code *)
  run : Event -> Machine -> Machine;
  (* the boolean such a call returns ([tap] reports whether it consumed) *)
  answer : Event -> Machine -> bool;
  (* [camera.screenToMeters] of a scene *)
  screenToMeters : ObjId -> float -> float -> float * float;
  (* [x] of the first and [y] of the second accelerometer reading of a frame *)
  accelerometerX : float;
  accelerometerY : float
}.

(** ** The monad of stage methods *)

Inductive Abort := TypeError | OutOfFuel.

Inductive Result (A : Type) :=
| Ok (a : A) (m : Machine) (t : Trace)
| Stop (why : Abort) (m : Machine) (t : Trace).
Arguments Ok {A} a m t.
Arguments Stop {A} why m t.

Definition M (A : Type) := Machine -> Result A.

Definition ret {A} (a : A) : M A := fun m => Ok a m [].

(** The result [r] of a computation that started after the calls [t]. *)
Definition prefix {A} (t : Trace) (r : Result A) : Result A :=
  match r with
  | Ok a m t' => Ok a m (t ++ t')
  | Stop why m t' => Stop why m (t ++ t')
  end.

Definition bind {A B} (c : M A) (k : A -> M B) : M B := fun m =>
  match c m with
  | Ok a m1 t1 => prefix t1 (k a m1)
  | Stop why m1 t1 => Stop why m1 t1
  end.

Notation "'let*' x ':=' c 'in' k" := (bind c (fun x => k))
  (at level 10, x name, c at level 100, k at level 200).
Notation "c '>>' k" := (bind c (fun _ => k))
  (at level 90, right associativity).

Definition trace {A} (r : Result A) : Trace :=
  match r with Ok _ _ t | Stop _ _ t => t end.

Definition final {A} (r : Result A) : Machine :=
  match r with Ok _ m _ | Stop _ m _ => m end.

Definition returned {A} (r : Result A) : bool :=
  match r with Ok _ _ _ => true | Stop _ _ _ => false end.

Definition this : M Stage := fun m => Ok (stage m) m [].

Definition update (f : Stage -> Stage) : M unit := fun m =>
  Ok tt (mkMachine (f (stage m)) (oneTimeEvents m) (repeatEvents m) (nextId m)) [].

Definition throw {A} (why : Abort) : M A := fun m => Stop why m [].

(** A call that is recorded and leaves the program state alone. *)
Definition emit (ev : Event) : M unit := fun m => Ok tt m [ev].

(** [new k(...)]: the next unused identifier. *)
Definition new (k : SceneKind) : M ObjId := fun m =>
  Ok (nextId m)
     (mkMachine (stage m) (oneTimeEvents m) (repeatEvents m) (S (nextId m)))
     [ENew k (nextId m)].

(** ** Field assignments *)

Definition set_world v s := mkStage v (hud s) (overlay s) (gestureHudFirst s)
  (backgroundColor s) (welcomeSceneBuilder s) (winSceneBuilder s)
  (loseSceneBuilder s) (pauseSceneBuilder s) (score s) (background s)
  (foreground s) (music s) (musicPlaying s) (projectilePool s) (debugMode s).

Definition set_hud v s := mkStage (world s) v (overlay s) (gestureHudFirst s)
  (backgroundColor s) (welcomeSceneBuilder s) (winSceneBuilder s)
  (loseSceneBuilder s) (pauseSceneBuilder s) (score s) (background s)
  (foreground s) (music s) (musicPlaying s) (projectilePool s) (debugMode s).

Definition set_overlay v s := mkStage (world s) (hud s) v (gestureHudFirst s)
  (backgroundColor s) (welcomeSceneBuilder s) (winSceneBuilder s)
  (loseSceneBuilder s) (pauseSceneBuilder s) (score s) (background s)
  (foreground s) (music s) (musicPlaying s) (projectilePool s) (debugMode s).

Definition set_gestureHudFirst v s := mkStage (world s) (hud s) (overlay s) v
  (backgroundColor s) (welcomeSceneBuilder s) (winSceneBuilder s)
  (loseSceneBuilder s) (pauseSceneBuilder s) (score s) (background s)
  (foreground s) (music s) (musicPlaying s) (projectilePool s) (debugMode s).

Definition set_backgroundColor v s := mkStage (world s) (hud s) (overlay s)
  (gestureHudFirst s) v (welcomeSceneBuilder s) (winSceneBuilder s)
  (loseSceneBuilder s) (pauseSceneBuilder s) (score s) (background s)
  (foreground s) (music s) (musicPlaying s) (projectilePool s) (debugMode s).

Definition set_welcomeSceneBuilder v s := mkStage (world s) (hud s) (overlay s)
  (gestureHudFirst s) (backgroundColor s) v (winSceneBuilder s)
  (loseSceneBuilder s) (pauseSceneBuilder s) (score s) (background s)
  (foreground s) (music s) (musicPlaying s) (projectilePool s) (debugMode s).

Definition set_winSceneBuilder v s := mkStage (world s) (hud s) (overlay s)
  (gestureHudFirst s) (backgroundColor s) (welcomeSceneBuilder s) v
  (loseSceneBuilder s) (pauseSceneBuilder s) (score s) (background s)
  (foreground s) (music s) (musicPlaying s) (projectilePool s) (debugMode s).

Definition set_loseSceneBuilder v s := mkStage (world s) (hud s) (overlay s)
  (gestureHudFirst s) (backgroundColor s) (welcomeSceneBuilder s)
  (winSceneBuilder s) v (pauseSceneBuilder s) (score s) (background s)
  (foreground s) (music s) (musicPlaying s) (projectilePool s) (debugMode s).

Definition set_pauseSceneBuilder v s := mkStage (world s) (hud s) (overlay s)
  (gestureHudFirst s) (backgroundColor s) (welcomeSceneBuilder s)
  (winSceneBuilder s) (loseSceneBuilder s) v (score s) (background s)
  (foreground s) (music s) (musicPlaying s) (projectilePool s) (debugMode s).

Definition set_score v s := mkStage (world s) (hud s) (overlay s)
  (gestureHudFirst s) (backgroundColor s) (welcomeSceneBuilder s)
  (winSceneBuilder s) (loseSceneBuilder s) (pauseSceneBuilder s) v
  (background s) (foreground s) (music s) (musicPlaying s) (projectilePool s)
  (debugMode s).

Definition set_background v s := mkStage (world s) (hud s) (overlay s)
  (gestureHudFirst s) (backgroundColor s) (welcomeSceneBuilder s)
  (winSceneBuilder s) (loseSceneBuilder s) (pauseSceneBuilder s) (score s) v
  (foreground s) (music s) (musicPlaying s) (projectilePool s) (debugMode s).

Definition set_foreground v s := mkStage (world s) (hud s) (overlay s)
  (gestureHudFirst s) (backgroundColor s) (welcomeSceneBuilder s)
  (winSceneBuilder s) (loseSceneBuilder s) (pauseSceneBuilder s) (score s)
  (background s) v (music s) (musicPlaying s) (projectilePool s) (debugMode s).

Definition set_music v s := mkStage (world s) (hud s) (overlay s)
  (gestureHudFirst s) (backgroundColor s) (welcomeSceneBuilder s)
  (winSceneBuilder s) (loseSceneBuilder s) (pauseSceneBuilder s) (score s)
  (background s) (foreground s) v (musicPlaying s) (projectilePool s)
  (debugMode s).

Definition set_musicPlaying v s := mkStage (world s) (hud s) (overlay s)
  (gestureHudFirst s) (backgroundColor s) (welcomeSceneBuilder s)
  (winSceneBuilder s) (loseSceneBuilder s) (pauseSceneBuilder s) (score s)
  (background s) (foreground s) (music s) v (projectilePool s) (debugMode s).

Definition set_projectilePool v s := mkStage (world s) (hud s) (overlay s)
  (gestureHudFirst s) (backgroundColor s) (welcomeSceneBuilder s)
  (winSceneBuilder s) (loseSceneBuilder s) (pauseSceneBuilder s) (score s)
  (background s) (foreground s) (music s) (musicPlaying s) v (debugMode s).

Definition set_loseCountDownRemaining v c :=
  mkScore v (winCountRemaining c) (stopWatchProgress c).

Definition set_winCountRemaining v c :=
  mkScore (loseCountDownRemaining c) v (stopWatchProgress c).

Definition set_stopWatchProgress v c :=
  mkScore (loseCountDownRemaining c) (winCountRemaining c) v.

(** The sentinel of a disabled timer. *)
Definition sentinel : float := (-100)%float.

(** Modelled from the spec: [Score.reset], of the class [Score] in
    misc/Score, restores the default, sentinel value of the three timers. *)
Definition Score_reset (c : Score) : Score := mkScore sentinel sentinel sentinel.

(** The contents of the queue arrays of world [w]. *)
Definition oneTimeEventsOf (w : ObjId) (m : Machine) : list Closure :=
  default [] (oneTimeEvents m !! w).

Definition repeatEventsOf (w : ObjId) (m : Machine) : list Closure :=
  default [] (repeatEvents m !! w).

(** [this.world.oneTimeEvents.length = 0] *)
Definition clearOneTimeEvents : M unit := fun m =>
  Ok tt (mkMachine (stage m) (<[world (stage m) := []]> (oneTimeEvents m))
                   (repeatEvents m) (nextId m)) [].

(** ** The methods of [JetLagStage] *)

Section Methods.

Variable env : Env.

(** A call that runs game code: recorded, and the program state becomes what
    the environment makes of it. *)
Definition call (ev : Event) : M unit := fun m => Ok tt (run env ev m) [ev].

(** Such a call whose boolean result the stage uses. *)
Definition ask (ev : Event) : M bool := fun m =>
  Ok (answer env ev m) (run env ev m) [ev].

Definition setWelcomeSceneBuilder (builder : option Closure) : M unit :=
  update (set_welcomeSceneBuilder builder).

Definition setWinSceneBuilder (builder : option Closure) : M unit :=
  update (set_winSceneBuilder builder).

Definition setLoseSceneBuilder (builder : option Closure) : M unit :=
  update (set_loseSceneBuilder builder).

Definition setPauseSceneBuilder (builder : option Closure) : M unit :=
  update (set_pauseSceneBuilder builder).

Definition setGestureHudFirst (val : bool) : M unit :=
  update (set_gestureHudFirst val).

Definition setBackgroundColor (color : float) : M unit :=
  update (set_backgroundColor color).

Definition setProjectilePool (pool : option ObjId) : M unit :=
  update (set_projectilePool pool).

Definition setScore (score : Score) : M unit := update (set_score score).

Definition setMusic (music : option ObjId) : M unit := update (set_music music).

(** The [debugMode] block of [tap]: two camera queries, two log lines. *)
Definition logTouch (screenX screenY : float) : M unit :=
  let* s := this in
  emit (EScreenToMeters RWorld (world s) screenX screenY) >>
  emit (EScreenToMeters RHud (hud s) screenX screenY) >>
  emit (ELoggerInfo RWorld (fst (screenToMeters env (world s) screenX screenY))
                           (snd (screenToMeters env (world s) screenX screenY))) >>
  emit (ELoggerInfo RHud (fst (screenToMeters env (hud s) screenX screenY))
                         (snd (screenToMeters env (hud s) screenX screenY))).

Definition tap (screenX screenY : float) : M unit :=
  let* s := this in
  match overlay s with
  | Some o => call (EGesture ROverlay o Tap screenX screenY)
  | None =>
      (if debugMode s then logTouch screenX screenY else ret tt) >>
      let* s := this in
      if gestureHudFirst s then
        let* consumed := ask (EGesture RHud (hud s) Tap screenX screenY) in
        if consumed then ret tt
        else
          let* s := this in
          call (EGesture RWorld (world s) Tap screenX screenY)
      else
        let* consumed := ask (EGesture RWorld (world s) Tap screenX screenY) in
        if consumed then ret tt
        else
          let* s := this in
          call (EGesture RHud (hud s) Tap screenX screenY)
  end.

Definition panStart (screenX screenY : float) : M unit :=
  let* s := this in
  match overlay s with
  | Some o => call (EGesture ROverlay o PanStart screenX screenY)
  | None => call (EGesture RHud (hud s) PanStart screenX screenY)
  end.

Definition panMove (screenX screenY : float) : M unit :=
  let* s := this in
  match overlay s with
  | Some o => call (EGesture ROverlay o PanMove screenX screenY)
  | None => call (EGesture RHud (hud s) PanMove screenX screenY)
  end.

Definition panStop (screenX screenY : float) : M unit :=
  let* s := this in
  match overlay s with
  | Some o => call (EGesture ROverlay o PanStop screenX screenY)
  | None => call (EGesture RHud (hud s) PanStop screenX screenY)
  end.

Definition touchDown (screenX screenY : float) : M unit :=
  let* s := this in
  match overlay s with
  | Some o => call (EGesture ROverlay o TouchDown screenX screenY)
  | None => call (EGesture RHud (hud s) TouchDown screenX screenY)
  end.

Definition touchUp (screenX screenY : float) : M unit :=
  let* s := this in
  match overlay s with
  | Some o => call (EGesture ROverlay o TouchUp screenX screenY)
  | None => call (EGesture RHud (hud s) TouchUp screenX screenY)
  end.

Definition swipe (screenX0 screenY0 screenX1 screenY1 time : float) : M unit :=
  let* s := this in
  call (ESwipe RHud (hud s) screenX0 screenY0 screenX1 screenY1 time).

(** The stage method a gesture of kind [g] is delivered to. *)
Definition handle (g : Gesture) : float -> float -> M unit :=
  match g with
  | Tap => tap
  | PanStart => panStart
  | PanMove => panMove
  | PanStop => panStop
  | TouchDown => touchDown
  | TouchUp => touchUp
  end.

Definition clearOverlayScene : M unit := update (set_overlay None).

Definition playMusic : M unit :=
  let* s := this in
  if negb (musicPlaying s) then
    match music s with
    | Some snd => update (set_musicPlaying true) >> emit (EMusicPlay snd)
    | None => ret tt
    end
  else ret tt.

(** [this.music.stop()] on a [null] music is a TypeError. *)
Definition pauseMusic : M unit :=
  let* s := this in
  if musicPlaying s then
    update (set_musicPlaying false) >>
    let* s := this in
    match music s with
    | Some snd => emit (EMusicStop snd)
    | None => throw TypeError
    end
  else ret tt.

Definition stopMusic : M unit :=
  let* s := this in
  if musicPlaying s then
    emit (EConsoleLog "stopping music") >>
    update (set_musicPlaying false) >>
    let* s := this in
    match music s with
    | Some snd => emit (EMusicStop snd)
    | None => throw TypeError
    end
  else ret tt.

(** [this.overlay = new OverlayScene(...); builder(new OverlayApi(this.overlay,
    this.device, this))]: the two statements the four scenes share.  The
    third, which clears the builder field, is written where they are used. *)
Definition showOverlay (builder : Closure) : M unit :=
  let* o := new OverlayScene in
  update (set_overlay (Some o)) >>
  call (EBuilder builder o).

Definition endLevel (win : bool) : M unit :=
  emit (EEndLevel win) >>
  let* s := this in
  if win then
    match winSceneBuilder s with
    | Some b => showOverlay b >> update (set_winSceneBuilder None)
    | None => call EAdvanceLevel
    end
  else
    match loseSceneBuilder s with
    | Some b => showOverlay b >> update (set_loseSceneBuilder None)
    | None => call ERepeatLevel
    end.

(** The first statement of [render]: the welcome scene. *)
Definition showWelcomeScene : M unit :=
  let* s := this in
  match welcomeSceneBuilder s with
  | Some b => showOverlay b >> update (set_welcomeSceneBuilder None)
  | None => ret tt
  end.

(** The second statement of [render]: the pause scene. *)
Definition showPauseScene : M unit :=
  let* s := this in
  match pauseSceneBuilder s with
  | Some b => showOverlay b >> update (set_pauseSceneBuilder None)
  | None => ret tt
  end.

Definition sceneBuilders : M unit := showWelcomeScene >> showPauseScene.

Definition updateLoseTimer (elapsedTime : float) : M unit :=
  let* s := this in
  if negb (loseCountDownRemaining (score s) =? sentinel)%float then
    update (fun s => set_score (set_loseCountDownRemaining
      (loseCountDownRemaining (score s) - elapsedTime / 1000)%float (score s)) s) >>
    let* s := this in
    if (loseCountDownRemaining (score s) <? 0)%float then endLevel false
    else ret tt
  else ret tt.

Definition updateWinTimer (elapsedTime : float) : M unit :=
  let* s := this in
  if negb (winCountRemaining (score s) =? sentinel)%float then
    update (fun s => set_score (set_winCountRemaining
      (winCountRemaining (score s) - elapsedTime / 1000)%float (score s)) s) >>
    let* s := this in
    if (winCountRemaining (score s) <? 0)%float then endLevel true
    else ret tt
  else ret tt.

Definition updateStopWatch (elapsedTime : float) : M unit :=
  let* s := this in
  if negb (stopWatchProgress (score s) =? sentinel)%float then
    update (fun s => set_score (set_stopWatchProgress
      (stopWatchProgress (score s) + elapsedTime / 1000)%float (score s)) s)
  else ret tt.

(** "Update the win/lose timers". *)
Definition updateTimers (elapsedTime : float) : M unit :=
  updateLoseTimer elapsedTime >>
  updateWinTimer elapsedTime >>
  updateStopWatch elapsedTime.

(** [this.world.handleTilt(this.device.getAccelerometer().get().x,
    this.device.getAccelerometer().get().y)] *)
Definition handleTilt : M unit :=
  let* s := this in
  emit EAccelerometerGet >>
  emit EAccelerometerGet >>
  call (EHandleTilt (world s) (accelerometerX env) (accelerometerY env)).

(** [this.world.advanceWorld(1 / 45, 8, 3)] *)
Definition advanceWorld : M unit :=
  let* s := this in
  call (EAdvanceWorld (world s) (1 / 45)%float 8%float 3%float).

(** [for (let e of arr) e();] over a live array: the iterator keeps the array
    it started on and an index, and reads the array again at every step.
    [fuel] bounds the number of steps; a loop that needs more is reported as
    [OutOfFuel]. *)
Fixpoint forOf (fuel : nat) (arr : Machine -> list Closure) (i : nat) : M unit :=
  match fuel with
  | O => throw OutOfFuel
  | S fuel' => fun m =>
      match arr m !! i with
      | Some e => (call (ERunEvent e) >> forOf fuel' arr (S i)) m
      | None => ret tt m
      end
  end.

(** "Execute any one time events, then clear the list" *)
Definition runOneTimeEvents (fuel : nat) : M unit :=
  let* s := this in
  forOf fuel (oneTimeEventsOf (world s)) 0 >>
  clearOneTimeEvents.

(** "handle repeat events" *)
Definition runRepeatEvents (fuel : nat) : M unit :=
  let* s := this in
  forOf fuel (repeatEventsOf (world s)) 0.

(** The camera and the four layers, back to front. *)
Definition draw (elapsedTime : float) : M unit :=
  let* s := this in
  call (EAdjustCamera (world s)) >>
  let* s := this in
  call (EParallaxRender RBackground (background s) (world s) elapsedTime) >>
  let* s := this in
  call (ESceneRender RWorld (world s) elapsedTime) >>
  let* s := this in
  call (EParallaxRender RForeground (foreground s) (world s) elapsedTime) >>
  let* s := this in
  call (ESceneRender RHud (hud s) elapsedTime).

(** [render] from [renderer.setFrameColor] on: the path taken when no overlay
    is showing. *)
Definition updateWorld (fuel : nat) (elapsedTime : float) : M unit :=
  let* s := this in
  emit (ESetFrameColor (backgroundColor s)) >>
  playMusic >>
  updateTimers elapsedTime >>
  handleTilt >>
  advanceWorld >>
  runOneTimeEvents fuel >>
  runRepeatEvents fuel >>
  draw elapsedTime.

Definition render (fuel : nat) (elapsedTime : float) : M unit :=
  sceneBuilders >>
  let* s := this in
  match overlay s with
  | Some o => call (ESceneRender ROverlay o elapsedTime)
  | None => updateWorld fuel elapsedTime
  end.

Definition onScreenChange : M unit :=
  stopMusic >>
  update (set_music None) >>
  update (set_projectilePool None) >>
  update (fun s => set_score (Score_reset (score s)) s) >>
  emit EClearLevelFacts >>
  update (set_gestureHudFirst true) >>
  update (set_backgroundColor 0xFFFFFF%float) >>
  update (set_welcomeSceneBuilder None) >>
  update (set_winSceneBuilder None) >>
  update (set_loseSceneBuilder None) >>
  update (set_pauseSceneBuilder None) >>
  let* w := new WorldScene in
  update (set_world w) >>
  let* h := new OverlayScene in
  update (set_hud h) >>
  let* b := new ParallaxScene in
  update (set_background b) >>
  let* f := new ParallaxScene in
  update (set_foreground f).

End Methods.

(** ** Reading a trace *)

Definition count (p : Event -> bool) (t : Trace) : nat := length (List.filter p t).

Definition isTap (ev : Event) : bool :=
  match ev with EGesture _ _ Tap _ _ => true | _ => false end.

Definition isTapOf (r : Recv) (ev : Event) : bool :=
  match ev, r with
  | EGesture RHud _ Tap _ _, RHud => true
  | EGesture RWorld _ Tap _ _, RWorld => true
  | EGesture ROverlay _ Tap _ _, ROverlay => true
  | _, _ => false
  end.

Definition isEndLevel (win : bool) (ev : Event) : bool :=
  match ev with EEndLevel w => Bool.eqb w win | _ => false end.

Definition isNew (ev : Event) : bool :=
  match ev with ENew _ _ => true | _ => false end.

Definition isAdvanceWorld (ev : Event) : bool :=
  match ev with EAdvanceWorld _ _ _ _ => true | _ => false end.


(** The events of the path [render] takes when no overlay is showing: the
    frame colour, music, [endLevel] and what it does, tilt, physics, queued
    events, camera and the four layers. *)
Definition isWorldUpdate (ev : Event) : bool :=
  match ev with
  | ESetFrameColor _ | EMusicPlay _ | EEndLevel _ | EAdvanceLevel | ERepeatLevel
  | EAccelerometerGet | EHandleTilt _ _ _ | EAdvanceWorld _ _ _ _ | ERunEvent _
  | EAdjustCamera _ | EParallaxRender _ _ _ _ => true
  | ESceneRender r _ _ => match r with ROverlay => false | _ => true end
  | _ => false
  end.

(** ** States named in the statements *)

(** The state in which [showOverlay] calls the builder: the new overlay is
    installed and the allocator has moved on. *)
Definition withNewOverlay (m : Machine) : Machine :=
  mkMachine (set_overlay (Some (nextId m)) (stage m)) (oneTimeEvents m)
            (repeatEvents m) (S (nextId m)).

(** A machine with another stage. *)
Definition withStage (f : Stage -> Stage) (m : Machine) : Machine :=
  mkMachine (f (stage m)) (oneTimeEvents m) (repeatEvents m) (nextId m).

(** The stage [onScreenChange] leaves when the allocator stood at [n]: the
    four scenes are the objects [n] to [n + 3]; [overlay] and the
    configuration are not assigned and keep the value [s] has. *)
Definition resetStage (n : ObjId) (s : Stage) : Stage :=
  mkStage n (1 + n) (overlay s) true 0xFFFFFF%float None None None None
          (mkScore sentinel sentinel sentinel) (2 + n) (3 + n) None false None
          (debugMode s).

(** A machine with another value of one timer. *)
Definition withLoseTimer (v : float) : Machine -> Machine :=
  withStage (fun s => set_score (set_loseCountDownRemaining v (score s)) s).

Definition withWinTimer (v : float) : Machine -> Machine :=
  withStage (fun s => set_score (set_winCountRemaining v (score s)) s).

Definition withStopWatch (v : float) : Machine -> Machine :=
  withStage (fun s => set_score (set_stopWatchProgress v (score s)) s).

(** The states [updateWorld] passes through when started in [m0]: where the
    lose timer is examined, where the win timer is, where the stopwatch is,
    where the tilt is read, where the physics world is advanced, and where
    the one-time events start to run. *)
Definition atLoseTimer (m0 : Machine) : Machine := final (playMusic m0).

Definition atWinTimer (env : Env) (e : float) (m0 : Machine) : Machine :=
  final (updateLoseTimer env e (atLoseTimer m0)).

Definition atStopWatch (env : Env) (e : float) (m0 : Machine) : Machine :=
  final (updateWinTimer env e (atWinTimer env e m0)).

Definition atTilt (env : Env) (e : float) (m0 : Machine) : Machine :=
  final (updateStopWatch e (atStopWatch env e m0)).

Definition atPhysics (env : Env) (e : float) (m0 : Machine) : Machine :=
  final (handleTilt env (atTilt env e m0)).

Definition atOneTimeEvents (env : Env) (e : float) (m0 : Machine) : Machine :=
  final (advanceWorld env (atPhysics env e m0)).

(** The calls of [updateWorld] up to and including the physics advance. *)
Definition untilPhysics (env : Env) (e : float) (m0 : Machine) : Trace :=
  [ESetFrameColor (backgroundColor (stage m0))] ++
  trace (playMusic m0) ++
  trace (updateLoseTimer env e (atLoseTimer m0)) ++
  trace (updateWinTimer env e (atWinTimer env e m0)) ++
  trace (handleTilt env (atTilt env e m0)) ++
  trace (advanceWorld env (atPhysics env e m0)).


(** A countdown, or the stopwatch, one frame of [e] milliseconds later:
    the sentinel stays. *)
Definition countDown (e t : float) : float :=
  if (t =? sentinel)%float then t else (t - e / 1000)%float.

Definition countUp (e t : float) : float :=
  if (t =? sentinel)%float then t else (t + e / 1000)%float.

(** A countdown that runs out in a frame of [e] milliseconds: it is not the
    sentinel and its new value is below zero. *)
Definition expires (e t : float) : bool :=
  negb (t =? sentinel)%float && (t - e / 1000 <? 0)%float.


(** The events [updateWorld] can record up to the physics advance, and
    those it can record after it. *)
Definition beforeQueues (ev : Event) : bool :=
  match ev with
  | ESetFrameColor _ | EMusicPlay _ | EEndLevel _ | ENew OverlayScene _
  | EBuilder _ _ | EAdvanceLevel | ERepeatLevel | EAccelerometerGet
  | EHandleTilt _ _ _ | EAdvanceWorld _ _ _ _ => true
  | _ => false
  end.

Definition fromQueues (ev : Event) : bool :=
  match ev with
  | ERunEvent _ | EAdjustCamera _ | EParallaxRender _ _ _ _ | ESceneRender _ _ _ => true
  | _ => false
  end.

Definition isBuilding (ev : Event) : bool :=
  match ev with ENew OverlayScene _ | EBuilder _ _ => true | _ => false end.

Definition isQueued (ev : Event) : bool :=
  match ev with ERunEvent _ => true | _ => false end.

(** The calls of [stopMusic]: none when no music is playing. *)
Definition stopMusicTrace (s : Stage) : Trace :=
  match musicPlaying s, music s with
  | true, Some snd => [EConsoleLog "stopping music"; EMusicStop snd]
  | _, _ => []
  end.

(** ** Invariants and further kinds of events *)

(** Music that is marked as playing is set. *)
Definition musicOk (s : Stage) : bool :=
  match musicPlaying s, music s with
  | true, None => false
  | _, _ => true
  end.

Definition isMusicPlay (ev : Event) : bool :=
  match ev with EMusicPlay _ => true | _ => false end.

Definition isMusicStop (ev : Event) : bool :=
  match ev with EMusicStop _ => true | _ => false end.

Definition isOverlayRender (ev : Event) : bool :=
  match ev with ESceneRender ROverlay _ _ => true | _ => false end.

(** A call of a scene builder. *)
Definition isBuilderCall (ev : Event) : bool :=
  match ev with EBuilder _ _ => true | _ => false end.

(** What [endLevel] can record. *)
Definition isEnding (ev : Event) : bool :=
  match ev with
  | EEndLevel _ | ENew OverlayScene _ | EBuilder _ _ | EAdvanceLevel
  | ERepeatLevel => true
  | _ => false
  end.

(** What [render] can record. *)
Definition renderKind (ev : Event) : bool :=
  isBuilding ev || beforeQueues ev || fromQueues ev.

(** What only [onScreenChange] and the gesture handlers record. *)
Definition isForeign (ev : Event) : bool :=
  match ev with
  | EGesture _ _ _ _ _ | ESwipe _ _ _ _ _ _ _ | EMusicStop _ | EConsoleLog _
  | EScreenToMeters _ _ _ _ | ELoggerInfo _ _ _ | EClearLevelFacts
  | ENew WorldScene _ | ENew ParallaxScene _ => true
  | _ => false
  end.

(** What [updateWorld] can record after the physics advance: queued events,
    the camera, and the rendering of background, world, foreground and HUD. *)
Definition queueOrDraw (ev : Event) : bool :=
  match ev with
  | ERunEvent _ | EAdjustCamera _ | EParallaxRender _ _ _ _
  | ESceneRender RWorld _ _ | ESceneRender RHud _ _ => true
  | _ => false
  end.

End JetLagStage.

Module Goodie.

Import JetLagStage.

Section Goodie.

(** The part of a goodie that the constructor of its superclass
    [WorldActor] builds is left abstract. *)
Variable WorldActor : Type.
Variable super : ObjId -> ObjId -> ObjId -> string -> float -> float -> WorldActor.

Record Goodie := mkGoodie {
  actor : WorldActor;
  onHeroCollect : option Closure;
  score : list float
}.

(** [new Goodie(scene, device, config, width, height, imgName)] *)
Definition new (scene device config : ObjId) (width height : float)
  (imgName : string) : Goodie :=
  mkGoodie (super scene device config imgName width height) None
           [1%float; 0%float; 0%float; 0%float].

Definition onCollide (other contact : ObjId) (g : Goodie) : Goodie := g.

Definition setScore (v1 v2 v3 v4 : float) (g : Goodie) : Goodie :=
  mkGoodie (actor g) (onHeroCollect g) [v1; v2; v3; v4].

End Goodie.

End Goodie.

(** ** A sample game

    A concrete environment and stage on which the statements below are
    evaluated.  The physics step reports a first contact by queueing event 5,
    which starts the stopwatch; event 1 queues event 2; event 2 paints the
    background black; the HUD consumes the taps left of x = 100. *)

Module Sample.

Import JetLagStage.

Definition enqueue (w : ObjId) (e : Closure) (m : Machine) : Machine :=
  mkMachine (stage m) (<[w := oneTimeEventsOf w m ++ [e]]> (oneTimeEvents m))
            (repeatEvents m) (nextId m).

Definition game_run (ev : Event) (m : Machine) : Machine :=
  match ev with
  | EAdvanceWorld w _ _ _ =>
      if (stopWatchProgress (score (stage m)) =? sentinel)%float
      then enqueue w 5 m else m
  | ERunEvent 5 =>
      withStage (fun s => set_score (set_stopWatchProgress 0%float (score s)) s) m
  | ERunEvent 1 => enqueue (world (stage m)) 2 m
  | ERunEvent 2 => withStage (set_backgroundColor 0%float) m
  | _ => m
  end.

Definition game_answer (ev : Event) (m : Machine) : bool :=
  match ev with
  | EGesture RHud _ Tap x _ => (x <? 100)%float
  | _ => true
  end.

Definition game : Env :=
  mkEnv game_run game_answer (fun _ x y => (x, y)) 0%float 0%float.

(** The stage right after [onScreenChange] on a new stage with a score: world
    0, HUD 1, background 2, foreground 3. *)
Definition level : Machine :=
  mkMachine
    (mkStage 0 1 None true 0xFFFFFF%float None None None None
             (mkScore sentinel sentinel sentinel) 2 3 None false None false)
    ∅ ∅ 4.

(** [level] with the one-time queue [q1] and the repeat queue [q2]. *)
Definition queued (q1 q2 : list Closure) : Machine :=
  mkMachine (stage level) (<[0 := q1]> ∅) (<[0 := q2]> ∅) (nextId level).

(** A game whose event 7 queues itself again on world 0 each time it runs. *)
Definition requeue_run (ev : Event) (m : Machine) : Machine :=
  match ev with
  | ERunEvent 7 => enqueue 0 7 m
  | _ => m
  end.

Definition requeue : Env :=
  mkEnv requeue_run (fun _ _ => true) (fun _ x y => (x, y)) 0%float 0%float.







End Sample.

(** * Properties *)

Import JetLagStage.

(** ** Sequencing *)

Section Sequencing.

Context {A B C : Type}.

Lemma trace_prefix (t : Trace) (r : Result A) : trace (prefix t r) = t ++ trace r.
Proof. destruct r; reflexivity. Qed.

Lemma final_prefix (t : Trace) (r : Result A) : final (prefix t r) = final r.
Proof. destruct r; reflexivity. Qed.

Lemma returned_prefix (t : Trace) (r : Result A) :
  returned (prefix t r) = returned r.
Proof. destruct r; reflexivity. Qed.

Lemma prefix_nil (r : Result A) : prefix [] r = r.
Proof. destruct r; reflexivity. Qed.

Lemma prefix_prefix (t1 t2 : Trace) (r : Result A) :
  prefix t1 (prefix t2 r) = prefix (t1 ++ t2) r.
Proof. destruct r; simpl; rewrite app_assoc; reflexivity. Qed.

(** [bind] after a first part that returned. *)
Lemma bind_Ok (c : M A) (k : A -> M B) (m : Machine) a m1 t1 :
  c m = Ok a m1 t1 -> bind c k m = prefix t1 (k a m1).
Proof. intros H. unfold bind. rewrite H. reflexivity. Qed.

Lemma final_bind (c : M A) (k : A -> M B) (m : Machine) a m1 t1 :
  c m = Ok a m1 t1 -> final (bind c k m) = final (k a m1).
Proof.
  intros H. rewrite (bind_Ok _ _ _ _ _ _ H).
  destruct (k a m1); reflexivity.
Qed.


Lemma bind_assoc (c : M A) (k : A -> M B) (k' : B -> M C) (m : Machine) :
  bind (bind c k) k' m = bind c (fun a => bind (k a) k') m.
Proof.
  unfold bind. destruct (c m) as [a m1 t1|w m1 t1]; [|reflexivity].
  destruct (k a m1) as [b m2 t2|w m2 t2]; simpl; [|reflexivity].
  destruct (k' b m2); simpl; rewrite ?app_assoc; reflexivity.
Qed.

End Sequencing.

(** A result of type [unit] that returned is [Ok tt] of its final state and
    trace. *)
Lemma returned_Ok (r : Result unit) :
  returned r = true -> r = Ok tt (final r) (trace r).
Proof. destruct r as [[] m t|w m t]; simpl; [reflexivity|discriminate]. Qed.

(** ** Counting and filtering events *)

Section Traces.

Variables p q : Event -> bool.

Lemma count_app (t1 t2 : Trace) : count p (t1 ++ t2) = count p t1 + count p t2.
Proof. unfold count. rewrite List.filter_app, length_app. reflexivity. Qed.

(** Events of kind [q] only, none of which satisfies [p]. *)
Lemma filter_none (t : Trace) :
  (forall ev, q ev = true -> p ev = false) ->
  forallb q t = true -> List.filter p t = [].
Proof.
  intros Hpq. induction t as [|ev t IH]; simpl; [reflexivity|].
  intros H. apply andb_prop in H. destruct H as [Hq Ht].
  rewrite (Hpq ev Hq). auto.
Qed.

Lemma count_none (t : Trace) :
  (forall ev, q ev = true -> p ev = false) ->
  forallb q t = true -> count p t = 0.
Proof. intros Hpq Ht. unfold count. rewrite filter_none; auto. Qed.

Lemma forallb_weaken (t : Trace) :
  (forall ev, p ev = true -> q ev = true) ->
  forallb p t = true -> forallb q t = true.
Proof.
  intros Hpq. induction t as [|ev t IH]; simpl; [reflexivity|].
  intros H. apply andb_prop in H. destruct H as [Hp Ht].
  rewrite (Hpq ev Hp). auto.
Qed.

Lemma forallb_bind {A B} (c : M A) (k : A -> M B) (m : Machine) :
  forallb q (trace (c m)) = true ->
  (forall a m1, forallb q (trace (k a m1)) = true) ->
  forallb q (trace (bind c k m)) = true.
Proof.
  intros Hc Hk. unfold bind. destruct (c m) as [a m1 t1|w m1 t1]; [|exact Hc].
  rewrite trace_prefix, forallb_app. simpl in Hc. rewrite Hc. apply Hk.
Qed.

End Traces.


(** ** Proof steps that recur *)

(** The builder [endLevel] looks at: set or not. *)
Ltac case_builder :=
  match goal with
  | |- context [if ?w then winSceneBuilder ?s else loseSceneBuilder ?s] =>
      destruct (if w then winSceneBuilder s else loseSceneBuilder s)
  end.

(** A timer: at the sentinel, or not and then below zero or not. *)
Ltac case_timer :=
  cbv zeta; destruct (_ =? _)%float; [|destruct (_ <? _)%float].

(** Is music set, and is it playing? *)
Ltac case_music m := destruct (musicPlaying (stage m)), (music (stage m)).

(** No event of one kind is of the other: by cases on the event. *)
Ltac other_kind := intros []; simpl; congruence.

(** ** Gesture routing *)

Section Gestures.

Variable env : Env.

(** C4. While a transient overlay is active, each of tap, panStart, panMove,
    panStop, touchDown and touchUp makes exactly one call, to the overlay's
    handler of the same name, and none to the world or the HUD; swipe, in
    every state, makes exactly one call, to the HUD's swipe. *)
Theorem gestures_routed_to_overlay :
  (forall (g : Gesture) (m : Machine) (o : ObjId) (x y : float),
      overlay (stage m) = Some o ->
      handle env g x y m =
      Ok tt (run env (EGesture ROverlay o g x y) m) [EGesture ROverlay o g x y]) /\
  (forall (m : Machine) (x0 y0 x1 y1 time : float),
      swipe env x0 y0 x1 y1 time m =
      Ok tt (run env (ESwipe RHud (hud (stage m)) x0 y0 x1 y1 time) m)
            [ESwipe RHud (hud (stage m)) x0 y0 x1 y1 time]).
Proof.
  split.
  - intros g m o x y Ho.
    destruct g; unfold handle, tap, panStart, panMove, panStop, touchDown,
      touchUp, bind, this; rewrite Ho; reflexivity.
  - intros. reflexivity.
Qed.

(** With no overlay active, the pan and touch gestures make exactly one
    call, to the HUD; the world gets none of them. *)
Lemma pan_and_touch_go_to_hud (g : Gesture) (m : Machine) (x y : float) :
  overlay (stage m) = None ->
  g <> Tap ->
  handle env g x y m =
  Ok tt (run env (EGesture RHud (hud (stage m)) g x y) m)
     [EGesture RHud (hud (stage m)) g x y].
Proof.
  intros Ho Hg.
  destruct g; try congruence;
    unfold handle, panStart, panMove, panStop, touchDown, touchUp, bind, this;
    rewrite Ho; reflexivity.
Qed.

(** C5. A tap with no overlay active.  With gestureHudFirst = true the first
    handler called is the HUD's, and the world's handler is called after it
    exactly when the HUD's returned false: once, and not at all otherwise.
    With gestureHudFirst = false the world's handler is first and the HUD's
    follows exactly when the world's returned false.  The second handler is
    that of the scene the stage holds once the first has returned. *)
Theorem tap_priority (m : Machine) (x y : float) :
  overlay (stage m) = None ->
  let first := if gestureHudFirst (stage m)
               then EGesture RHud (hud (stage m)) Tap x y
               else EGesture RWorld (world (stage m)) Tap x y in
  let second := if gestureHudFirst (stage m)
                then EGesture RWorld (world (stage (run env first m))) Tap x y
                else EGesture RHud (hud (stage (run env first m))) Tap x y in
  returned (tap env x y m) = true /\
  List.filter isTap (trace (tap env x y m)) =
    (if answer env first m then [first] else [first; second]) /\
  count (isTapOf (if gestureHudFirst (stage m) then RWorld else RHud))
        (trace (tap env x y m)) =
    (if answer env first m then 0 else 1).
Proof.
  intros Ho. unfold tap, bind, this. rewrite Ho.
  destruct (debugMode (stage m)); simpl;
    destruct (gestureHudFirst (stage m)); simpl;
    unfold ask; simpl;
    match goal with |- context [answer env ?e m] => destruct (answer env e m) end;
    simpl; auto.
Qed.

End Gestures.

Lemma gestures_routed_to_overlay_witness :
  handle Sample.game TouchDown 5%float 7%float
         (withStage (set_overlay (Some 9)) Sample.level) =
  Ok tt (withStage (set_overlay (Some 9)) Sample.level)
        [EGesture ROverlay 9 TouchDown 5%float 7%float].
Proof.
  exact (proj1 (gestures_routed_to_overlay Sample.game) TouchDown
           (withStage (set_overlay (Some 9)) Sample.level) 9
           5%float 7%float eq_refl).
Defined.

Lemma pan_and_touch_go_to_hud_witness :
  handle Sample.game PanMove 5%float 7%float Sample.level =
  Ok tt Sample.level [EGesture RHud 1 PanMove 5%float 7%float].
Proof.
  exact (pan_and_touch_go_to_hud Sample.game PanMove Sample.level 5%float 7%float
           eq_refl ltac:(discriminate)).
Defined.

Lemma tap_priority_witness :
  overlay (stage Sample.level) = None /\
  returned (tap Sample.game 200%float 7%float Sample.level) = true /\
  List.filter isTap (trace (tap Sample.game 200%float 7%float Sample.level)) =
    [EGesture RHud 1 Tap 200%float 7%float;
     EGesture RWorld 0 Tap 200%float 7%float] /\
  count (isTapOf RWorld) (trace (tap Sample.game 200%float 7%float Sample.level)) = 1.
Proof.
  split; [reflexivity|].
  exact (tap_priority Sample.game Sample.level 200%float 7%float eq_refl).
Defined.

(** ** Music *)

Section Music.

Lemma playMusic_eq (m : Machine) :
  playMusic m =
  match musicPlaying (stage m), music (stage m) with
  | false, Some snd => Ok tt (withStage (set_musicPlaying true) m) [EMusicPlay snd]
  | _, _ => Ok tt m []
  end.
Proof. unfold playMusic, bind, this. case_music m; reflexivity. Qed.

Lemma playMusic_returned (m : Machine) : returned (playMusic m) = true.
Proof. rewrite playMusic_eq. case_music m; reflexivity. Qed.

Lemma playMusic_score (m : Machine) :
  score (stage (final (playMusic m))) = score (stage m).
Proof. rewrite playMusic_eq. case_music m; reflexivity. Qed.

Lemma playMusic_kind (m : Machine) :
  forallb beforeQueues (trace (playMusic m)) = true.
Proof. rewrite playMusic_eq. case_music m; reflexivity. Qed.

Lemma playMusic_filter (p : Event -> bool) (m : Machine) :
  (forall snd, p (EMusicPlay snd) = false) ->
  List.filter p (trace (playMusic m)) = [].
Proof.
  intros Hp. rewrite playMusic_eq. case_music m; try reflexivity.
  simpl. rewrite Hp. reflexivity.
Qed.

(** The music controls are idempotent: of two playMusic calls in a row the
    second makes no call and changes nothing, so the sound is started at
    most once; stopMusic when no music is playing makes no call and changes
    nothing. *)
Lemma music_controls_idempotent (m : Machine) :
  playMusic (final (playMusic m)) = Ok tt (final (playMusic m)) [] /\
  count (fun ev => match ev with EMusicPlay _ => true | _ => false end)
        (trace ((playMusic >> playMusic) m)) <= 1 /\
  (musicPlaying (stage m) = false -> stopMusic m = Ok tt m []).
Proof.
  assert (Hagain : playMusic (final (playMusic m)) = Ok tt (final (playMusic m)) []).
  { rewrite (playMusic_eq m).
    destruct (musicPlaying (stage m)) eqn:Hp, (music (stage m)) eqn:Hs;
      unfold final; rewrite playMusic_eq; cbn [stage withStage musicPlaying
        music set_musicPlaying]; rewrite ?Hp, ?Hs; reflexivity. }
  repeat split.
  - exact Hagain.
  - rewrite (bind_Ok _ _ _ _ _ _ (returned_Ok _ (playMusic_returned m))).
    rewrite Hagain, trace_prefix, app_nil_r.
    rewrite playMusic_eq. case_music m; unfold count; simpl; lia.
  - intros Hp. unfold stopMusic, bind, this. rewrite Hp. reflexivity.
Qed.

End Music.

(** ** endLevel *)

Section EndLevel.

Variable env : Env.

Lemma endLevel_eq (win : bool) (m : Machine) :
  endLevel env win m =
  match (if win then winSceneBuilder (stage m) else loseSceneBuilder (stage m)) with
  | Some b =>
      Ok tt (withStage (if win then set_winSceneBuilder None
                        else set_loseSceneBuilder None)
                       (run env (EBuilder b (nextId m)) (withNewOverlay m)))
         [EEndLevel win; ENew OverlayScene (nextId m); EBuilder b (nextId m)]
  | None =>
      Ok tt (run env (if win then EAdvanceLevel else ERepeatLevel) m)
         [EEndLevel win; if win then EAdvanceLevel else ERepeatLevel]
  end.
Proof.
  unfold endLevel, bind, emit, this. destruct win.
  - destruct (winSceneBuilder (stage m)); reflexivity.
  - destruct (loseSceneBuilder (stage m)); reflexivity.
Qed.

Lemma endLevel_returned (win : bool) (m : Machine) :
  returned (endLevel env win m) = true.
Proof. rewrite endLevel_eq. case_builder; reflexivity. Qed.

(** [endLevel win] records its own entry once, and no entry of the other. *)
Lemma endLevel_count (win b : bool) (m : Machine) :
  count (isEndLevel b) (trace (endLevel env win m)) =
  if Bool.eqb win b then 1 else 0.
Proof. rewrite endLevel_eq. case_builder; destruct win, b; reflexivity. Qed.

Lemma endLevel_kind (win : bool) (m : Machine) :
  forallb beforeQueues (trace (endLevel env win m)) = true.
Proof. rewrite endLevel_eq. case_builder; destruct win; reflexivity. Qed.

Lemma endLevel_no_physics (win : bool) (m : Machine) :
  List.filter isAdvanceWorld (trace (endLevel env win m)) = [].
Proof. rewrite endLevel_eq. case_builder; destruct win; reflexivity. Qed.

(** C7. endLevel(win) looks at the win-scene builder when win is true and at
    the lose-scene builder otherwise.  When that builder is set, endLevel
    constructs one overlay (the only object it constructs), installs it,
    calls the builder on it and then clears the builder field, whatever the
    builder did: the sequencer is not called, and an endLevel(win) issued
    right after finds no builder and calls advanceLevel (win) or repeatLevel
    (loss), constructing nothing.  When the builder is not set, endLevel
    constructs nothing and calls advanceLevel (win) or repeatLevel (loss). *)
Theorem endLevel_builder_or_sequencer (win : bool) (m : Machine) :
  let sequencer := if win then EAdvanceLevel else ERepeatLevel in
  match (if win then winSceneBuilder (stage m) else loseSceneBuilder (stage m)) with
  | Some b =>
      let o := nextId m in
      let r := endLevel env win m in
      returned r = true /\
      trace r = [EEndLevel win; ENew OverlayScene o; EBuilder b o] /\
      count isNew (trace r) = 1 /\
      stage (final r) =
        (if win then set_winSceneBuilder None else set_loseSceneBuilder None)
          (stage (run env (EBuilder b o) (withNewOverlay m))) /\
      (if win then winSceneBuilder (stage (final r))
       else loseSceneBuilder (stage (final r))) = None /\
      endLevel env win (final r) =
        Ok tt (run env sequencer (final r)) [EEndLevel win; sequencer]
  | None =>
      endLevel env win m = Ok tt (run env sequencer m) [EEndLevel win; sequencer]
  end.
Proof.
  cbv zeta.
  destruct (if win then winSceneBuilder (stage m) else loseSceneBuilder (stage m))
    as [b|] eqn:Hb; rewrite (endLevel_eq win m), Hb; [|reflexivity].
  unfold returned, trace, final.
  repeat split; try (destruct win; reflexivity);
    rewrite endLevel_eq; destruct win; reflexivity.
Qed.

End EndLevel.

(** ** Goodie *)

(** C10. A new Goodie has score deltas [1, 0, 0, 0] and no onHeroCollect
    callback; setScore(v1, v2, v3, v4) makes the deltas [v1, v2, v3, v4] for
    any four numbers and leaves the callback and the inherited part as they
    were. *)
Theorem goodie_defaults_and_setScore (WorldActor : Type)
  (super : ObjId -> ObjId -> ObjId -> string -> float -> float -> WorldActor)
  (scene device config : ObjId) (width height : float) (imgName : string)
  (g : Goodie.Goodie WorldActor) (v1 v2 v3 v4 : float) :
  Goodie.score _ (Goodie.new _ super scene device config width height imgName) =
    [1%float; 0%float; 0%float; 0%float] /\
  Goodie.onHeroCollect _ (Goodie.new _ super scene device config width height imgName) = None /\
  Goodie.score _ (Goodie.setScore _ v1 v2 v3 v4 g) = [v1; v2; v3; v4] /\
  Goodie.onHeroCollect _ (Goodie.setScore _ v1 v2 v3 v4 g) = Goodie.onHeroCollect _ g /\
  Goodie.actor _ (Goodie.setScore _ v1 v2 v3 v4 g) = Goodie.actor _ g.
Proof. repeat split. Qed.

(** ** onScreenChange *)

Lemma onScreenChange_eq (m : Machine) :
  (musicPlaying (stage m) = true -> music (stage m) <> None) ->
  onScreenChange m =
  Ok tt (mkMachine (resetStage (nextId m) (stage m)) (oneTimeEvents m)
                   (repeatEvents m) (4 + nextId m))
     (stopMusicTrace (stage m) ++
      [EClearLevelFacts; ENew WorldScene (nextId m); ENew OverlayScene (1 + nextId m);
       ENew ParallaxScene (2 + nextId m); ENew ParallaxScene (3 + nextId m)]).
Proof.
  intros Hmusic. destruct m as [s q1 q2 n].
  destruct s as [w h ov ghf bg wb winb lb pb sc bgr fg mu mp pool dbg].
  simpl in *.
  unfold onScreenChange, stopMusic, stopMusicTrace, bind, this.
  destruct mp; lazy beta iota delta [stage musicPlaying music];
    [destruct mu as [snd|]; [|exfalso; apply Hmusic; reflexivity]|];
    reflexivity.
Qed.

(** C8, amended.  From every state in which music that is marked as playing
    is set (musicPlaying implies music is not null; playMusic and stopMusic
    keep it so), onScreenChange returns and leaves: music stopped (stop() is
    called on it when it was playing) and null, musicPlaying false, the
    projectile pool null, gestureHudFirst true, backgroundColor 0xFFFFFF, the
    four scene builders null, the three Score timers at the sentinel -100,
    the level facts cleared, and world, HUD, background and foreground four
    newly constructed, pairwise distinct objects, none of them allocated
    before.  The overlay field is not assigned.  A second onScreenChange right
    after the first returns too and leaves the same values, with four further
    new objects. *)
Theorem onScreenChange_defaults (m : Machine) :
  (musicPlaying (stage m) = true -> music (stage m) <> None) ->
  let n := nextId m in
  let r := onScreenChange m in
  let r2 := onScreenChange (final r) in
  returned r = true /\
  stage (final r) = resetStage n (stage m) /\
  winCountRemaining (score (stage (final r))) = (-100)%float /\
  trace r = stopMusicTrace (stage m) ++
            [EClearLevelFacts; ENew WorldScene n; ENew OverlayScene (1 + n);
             ENew ParallaxScene (2 + n); ENew ParallaxScene (3 + n)] /\
  (musicPlaying (stage m) = true ->
   exists snd, music (stage m) = Some snd /\ List.In (EMusicStop snd) (trace r)) /\
  n <= world (stage (final r)) < hud (stage (final r)) /\
  hud (stage (final r)) < background (stage (final r)) /\
  background (stage (final r)) < foreground (stage (final r)) /\
  foreground (stage (final r)) < nextId (final r) /\
  returned r2 = true /\
  stage (final r2) = resetStage (4 + n) (stage m) /\
  winCountRemaining (score (stage (final r2))) = (-100)%float /\
  trace r2 = [EClearLevelFacts; ENew WorldScene (4 + n); ENew OverlayScene (5 + n);
              ENew ParallaxScene (6 + n); ENew ParallaxScene (7 + n)].
Proof.
  intros Hmusic n r r2.
  assert (Hr : r = Ok tt (mkMachine (resetStage n (stage m)) (oneTimeEvents m)
                            (repeatEvents m) (4 + n))
                     (stopMusicTrace (stage m) ++
                      [EClearLevelFacts; ENew WorldScene n; ENew OverlayScene (1 + n);
                       ENew ParallaxScene (2 + n); ENew ParallaxScene (3 + n)]))
    by (apply onScreenChange_eq; assumption).
  assert (Hr2 : r2 = Ok tt (mkMachine (resetStage (4 + n) (stage m)) (oneTimeEvents m)
                              (repeatEvents m) (8 + n))
                       [EClearLevelFacts; ENew WorldScene (4 + n);
                        ENew OverlayScene (5 + n); ENew ParallaxScene (6 + n);
                        ENew ParallaxScene (7 + n)]).
  { unfold r2. rewrite Hr. unfold final. rewrite onScreenChange_eq.
    - reflexivity.
    - discriminate. }
  rewrite Hr, Hr2. unfold final, trace, returned, resetStage. simpl.
  repeat split; try lia.
  intros Hp. unfold stopMusicTrace. rewrite Hp.
  destruct (music (stage m)) as [snd|]; [|exfalso; apply Hmusic; auto].
  exists snd. split; [reflexivity|]. simpl. auto.
Qed.

Lemma onScreenChange_defaults_witness :
  let m := final ((setMusic (Some 8) >> setGestureHudFirst false >> playMusic >>
                   setWinSceneBuilder (Some 21)) Sample.level) in
  returned (onScreenChange m) = true /\
  stage (final (onScreenChange m)) = resetStage 4 (stage m) /\
  trace (onScreenChange m) =
    [EConsoleLog "stopping music"; EMusicStop 8; EClearLevelFacts;
     ENew WorldScene 4; ENew OverlayScene 5; ENew ParallaxScene 6; ENew ParallaxScene 7].
Proof.
  pose proof (onScreenChange_defaults
    (final ((setMusic (Some 8) >> setGestureHudFirst false >> playMusic >>
             setWinSceneBuilder (Some 21)) Sample.level))
    (fun _ => ltac:(discriminate))) as H.
  cbv zeta in H. destruct H as (H1 & H2 & _ & H4 & _).
  exact (conj H1 (conj H2 H4)).
Defined.

(** C8 as stated fails when music marked as playing has been set to null:
    stopMusic calls stop() on null, onScreenChange throws after its first
    assignment, and the fields keep their values (here gestureHudFirst stays
    false).  The state is reached through the public setters.  Nor does
    onScreenChange touch the overlay: one that is showing before the call is
    still showing after it. *)
Lemma onScreenChange_counterexample :
  let m := final ((setMusic (Some 8) >> setGestureHudFirst false >> playMusic >>
                   setMusic None) Sample.level) in
  let m' := withStage (set_overlay (Some 9)) Sample.level in
  musicPlaying (stage m) = true /\
  music (stage m) = None /\
  onScreenChange m =
    Stop TypeError (withStage (set_musicPlaying false) m)
         [EConsoleLog "stopping music"] /\
  gestureHudFirst (stage (final (onScreenChange m))) = false /\
  returned (onScreenChange m') = true /\
  overlay (stage (final (onScreenChange m'))) = Some 9.
Proof. vm_compute. repeat split. Qed.

(** ** render: the scene builders and the overlay *)

Section RenderOverlay.

Variable env : Env.

Lemma showWelcomeScene_eq (m : Machine) :
  showWelcomeScene env m =
  match welcomeSceneBuilder (stage m) with
  | Some b =>
      Ok tt (withStage (set_welcomeSceneBuilder None)
                       (run env (EBuilder b (nextId m)) (withNewOverlay m)))
         [ENew OverlayScene (nextId m); EBuilder b (nextId m)]
  | None => Ok tt m []
  end.
Proof.
  unfold showWelcomeScene, bind, this.
  destruct (welcomeSceneBuilder (stage m)); reflexivity.
Qed.

Lemma showPauseScene_eq (m : Machine) :
  showPauseScene env m =
  match pauseSceneBuilder (stage m) with
  | Some b =>
      Ok tt (withStage (set_pauseSceneBuilder None)
                       (run env (EBuilder b (nextId m)) (withNewOverlay m)))
         [ENew OverlayScene (nextId m); EBuilder b (nextId m)]
  | None => Ok tt m []
  end.
Proof.
  unfold showPauseScene, bind, this.
  destruct (pauseSceneBuilder (stage m)); reflexivity.
Qed.

(** Both statements, whatever is pending. *)
Ltac case_builders m :=
  unfold sceneBuilders, bind; rewrite showWelcomeScene_eq;
  destruct (welcomeSceneBuilder (stage m));
  rewrite ?returned_prefix, ?trace_prefix, showPauseScene_eq;
  match goal with
  | |- context [pauseSceneBuilder ?s] => destruct (pauseSceneBuilder s)
  end.

Lemma sceneBuilders_returned (m : Machine) :
  returned (sceneBuilders env m) = true.
Proof. case_builders m; reflexivity. Qed.

Lemma sceneBuilders_kind (m : Machine) :
  forallb isBuilding (trace (sceneBuilders env m)) = true.
Proof. case_builders m; reflexivity. Qed.

(** With no builder pending the first two statements of [render] do nothing. *)
Lemma sceneBuilders_none (m : Machine) :
  welcomeSceneBuilder (stage m) = None ->
  pauseSceneBuilder (stage m) = None ->
  sceneBuilders env m = Ok tt m [].
Proof.
  intros Hw Hp. unfold sceneBuilders, bind.
  rewrite showWelcomeScene_eq, Hw. simpl. rewrite showPauseScene_eq, Hp.
  reflexivity.
Qed.

(** [render] is its scene builders followed by the overlay or the world. *)
Lemma render_eq (fuel : nat) (e : float) (m : Machine) :
  render env fuel e m =
  prefix (trace (sceneBuilders env m))
    match overlay (stage (final (sceneBuilders env m))) with
    | Some o => call env (ESceneRender ROverlay o e) (final (sceneBuilders env m))
    | None => updateWorld env fuel e (final (sceneBuilders env m))
    end.
Proof.
  unfold render.
  rewrite (bind_Ok _ _ _ _ _ _ (returned_Ok _ (sceneBuilders_returned m))).
  f_equal. unfold bind, this. cbv beta iota. rewrite prefix_nil.
  destruct (overlay (stage (final (sceneBuilders env m)))); reflexivity.
Qed.

(** C2, amended.  The pause-scene builder is examined in every render call,
    after the welcome-scene builder has been dealt with and whether or not
    one was pending.  The welcome statement constructs an overlay, calls the
    welcome builder on it and clears the builder when one is set, and does
    nothing otherwise; in the state m1 it ends in, the pause statement does
    the same with the pause builder: a pause builder set in m1, pending
    alone or along with a welcome builder, has an overlay constructed for
    it, is called on it in a state whose welcome builder is null, and is
    cleared.  So no pause builder remains set, and with both builders
    pending the one call records the four events of both scenes, with which
    render's trace starts. *)
Theorem render_runs_both_builders (fuel : nat) (e : float) (m : Machine) :
  let m1 := final (showWelcomeScene env m) in
  showWelcomeScene env m =
    match welcomeSceneBuilder (stage m) with
    | Some bw =>
        Ok tt (withStage (set_welcomeSceneBuilder None)
                         (run env (EBuilder bw (nextId m)) (withNewOverlay m)))
           [ENew OverlayScene (nextId m); EBuilder bw (nextId m)]
    | None => Ok tt m []
    end /\
  sceneBuilders env m =
    prefix (trace (showWelcomeScene env m))
      match pauseSceneBuilder (stage m1) with
      | Some bp =>
          Ok tt (withStage (set_pauseSceneBuilder None)
                           (run env (EBuilder bp (nextId m1)) (withNewOverlay m1)))
             [ENew OverlayScene (nextId m1); EBuilder bp (nextId m1)]
      | None => Ok tt m1 []
      end /\
  welcomeSceneBuilder (stage (withNewOverlay m1)) = None /\
  pauseSceneBuilder (stage (final (sceneBuilders env m))) = None /\
  (exists rest,
     trace (render env fuel e m) = trace (sceneBuilders env m) ++ rest) /\
  (forall bw bp,
     welcomeSceneBuilder (stage m) = Some bw ->
     pauseSceneBuilder (stage m1) = Some bp ->
     m1 = withStage (set_welcomeSceneBuilder None)
                    (run env (EBuilder bw (nextId m)) (withNewOverlay m)) /\
     trace (sceneBuilders env m) =
       [ENew OverlayScene (nextId m); EBuilder bw (nextId m);
        ENew OverlayScene (nextId m1); EBuilder bp (nextId m1)] /\
     final (sceneBuilders env m) =
       withStage (set_pauseSceneBuilder None)
                 (run env (EBuilder bp (nextId m1)) (withNewOverlay m1))).
Proof.
  intros m1.
  assert (Hret : returned (showWelcomeScene env m) = true)
    by (rewrite showWelcomeScene_eq;
        destruct (welcomeSceneBuilder (stage m)); reflexivity).
  assert (Hs : sceneBuilders env m =
               prefix (trace (showWelcomeScene env m)) (showPauseScene env m1)).
  { unfold sceneBuilders.
    rewrite (bind_Ok _ _ _ _ _ _ (returned_Ok _ Hret)). reflexivity. }
  assert (Hw : welcomeSceneBuilder (stage m1) = None).
  { unfold m1. rewrite showWelcomeScene_eq.
    destruct (welcomeSceneBuilder (stage m)) eqn:H; [reflexivity|exact H]. }
  split; [apply showWelcomeScene_eq|].
  split; [rewrite Hs, showPauseScene_eq; reflexivity|].
  split; [exact Hw|].
  split.
  { rewrite Hs, final_prefix, showPauseScene_eq.
    destruct (pauseSceneBuilder (stage m1)) eqn:H; [reflexivity|exact H]. }
  split.
  { rewrite render_eq, trace_prefix. eexists. reflexivity. }
  intros bw bp Hbw Hbp.
  assert (H1 : m1 = withStage (set_welcomeSceneBuilder None)
                      (run env (EBuilder bw (nextId m)) (withNewOverlay m)))
    by (unfold m1; rewrite showWelcomeScene_eq, Hbw; reflexivity).
  split; [exact H1|].
  rewrite Hs, showPauseScene_eq, Hbp, trace_prefix, final_prefix.
  rewrite showWelcomeScene_eq, Hbw. split; reflexivity.
Qed.

(** C1, amended.  Whenever a transient overlay is present once render has
    dealt with the welcome and pause builders (it was showing when the call
    started, or one of the two builders has just created it), render draws
    that overlay and returns: after the builders' own events the trace holds
    the overlay's render call and nothing else, so there is no frame colour,
    music, timer or endLevel step, no tilt, no physics advance, no queued
    event, no camera adjustment and no background, world, foreground or HUD
    drawing, for every elapsedTime.  With no builder pending the whole call
    is that single render call of the overlay. *)
Theorem render_overlay_only (fuel : nat) (e : float) (m : Machine) (o : ObjId) :
  overlay (stage (final (sceneBuilders env m))) = Some o ->
  render env fuel e m =
    Ok tt (run env (ESceneRender ROverlay o e) (final (sceneBuilders env m)))
       (trace (sceneBuilders env m) ++ [ESceneRender ROverlay o e]) /\
  count isWorldUpdate (trace (render env fuel e m)) = 0 /\
  (welcomeSceneBuilder (stage m) = None ->
   pauseSceneBuilder (stage m) = None ->
   overlay (stage m) = Some o /\
   render env fuel e m =
     Ok tt (run env (ESceneRender ROverlay o e) m) [ESceneRender ROverlay o e]).
Proof.
  intros Ho.
  assert (Hr : render env fuel e m =
               Ok tt (run env (ESceneRender ROverlay o e) (final (sceneBuilders env m)))
                  (trace (sceneBuilders env m) ++ [ESceneRender ROverlay o e])).
  { rewrite render_eq, Ho. reflexivity. }
  split; [exact Hr|]. split.
  - rewrite Hr. unfold trace at 1. rewrite count_app.
    rewrite (count_none isWorldUpdate isBuilding _
               ltac:(other_kind) (sceneBuilders_kind m)).
    reflexivity.
  - intros Hw Hp. rewrite Hr. rewrite (sceneBuilders_none m Hw Hp) in *.
    simpl in *. auto.
Qed.

End RenderOverlay.

Lemma render_runs_both_builders_witness :
  let both := withStage (fun s => set_welcomeSceneBuilder (Some 11)
                                    (set_pauseSceneBuilder (Some 12) s)) Sample.level in
  let lone := withStage (set_pauseSceneBuilder (Some 12)) Sample.level in
  trace (sceneBuilders Sample.game both) =
    [ENew OverlayScene 4; EBuilder 11 4; ENew OverlayScene 5; EBuilder 12 5] /\
  pauseSceneBuilder (stage (final (sceneBuilders Sample.game both))) = None /\
  sceneBuilders Sample.game lone =
    Ok tt (withStage (set_pauseSceneBuilder None) (withNewOverlay lone))
       [ENew OverlayScene 4; EBuilder 12 4].
Proof.
  pose proof (render_runs_both_builders Sample.game 1 16%float
    (withStage (fun s => set_welcomeSceneBuilder (Some 11)
                           (set_pauseSceneBuilder (Some 12) s)) Sample.level)) as H.
  pose proof (render_runs_both_builders Sample.game 1 16%float
    (withStage (set_pauseSceneBuilder (Some 12)) Sample.level)) as L.
  cbv zeta in H, L.
  destruct H as (_ & _ & _ & H4 & _ & H6).
  destruct (H6 11 12 eq_refl eq_refl) as (_ & H7 & _).
  destruct L as (_ & L2 & _).
  exact (conj H7 (conj H4 L2)).
Defined.

(** C2 as stated fails: with a welcome and a pause builder both pending,
    one render call calls and clears both, and the overlay it then draws is
    the one built for the pause scene. *)
Lemma render_both_builders_counterexample :
  let m := withStage (fun s => set_welcomeSceneBuilder (Some 11)
                                 (set_pauseSceneBuilder (Some 12) s)) Sample.level in
  let r := render Sample.game 1 16%float m in
  welcomeSceneBuilder (stage m) = Some 11 /\
  pauseSceneBuilder (stage m) = Some 12 /\
  returned r = true /\
  trace r = [ENew OverlayScene 4; EBuilder 11 4; ENew OverlayScene 5; EBuilder 12 5;
             ESceneRender ROverlay 5 16%float] /\
  overlay (stage (final r)) = Some 5 /\
  pauseSceneBuilder (stage (final r)) = None /\
  welcomeSceneBuilder (stage (final r)) = None.
Proof. vm_compute. repeat split. Qed.

Lemma render_overlay_only_witness :
  let m := withStage (set_welcomeSceneBuilder (Some 11)) Sample.level in
  overlay (stage (final (sceneBuilders Sample.game m))) = Some 4 /\
  render Sample.game 1 16%float m =
    Ok tt (withStage (set_welcomeSceneBuilder None) (withNewOverlay m))
       [ENew OverlayScene 4; EBuilder 11 4; ESceneRender ROverlay 4 16%float].
Proof.
  split; [reflexivity|].
  exact (proj1 (render_overlay_only Sample.game 1 16%float
    (withStage (set_welcomeSceneBuilder (Some 11)) Sample.level) 4 eq_refl)).
Defined.

(** C1 as stated fails in the render call in which endLevel creates the
    overlay.  No overlay and no builder for the welcome or pause scene, a
    lose-scene builder set, 0.5 s left on the lose countdown and a frame of
    600 ms: the countdown passes zero, endLevel(false) installs overlay 4,
    and the same call goes on to read the tilt, advance the physics world,
    run the queued event 5, adjust the camera and draw background, world,
    foreground and HUD.  The overlay is present and is not drawn. *)
Lemma render_overlay_counterexample :
  let m := withLoseTimer 0.5%float
             (withStage (set_loseSceneBuilder (Some 13)) Sample.level) in
  let r := render Sample.game 2 600%float m in
  returned r = true /\
  trace r =
    [ESetFrameColor 0xFFFFFF%float; EEndLevel false; ENew OverlayScene 4;
     EBuilder 13 4; EAccelerometerGet; EAccelerometerGet;
     EHandleTilt 0 0%float 0%float;
     EAdvanceWorld 0 (1 / 45)%float 8%float 3%float; ERunEvent 5;
     EAdjustCamera 0; EParallaxRender RBackground 2 0 600%float;
     ESceneRender RWorld 0 600%float; EParallaxRender RForeground 3 0 600%float;
     ESceneRender RHud 1 600%float] /\
  overlay (stage (final r)) = Some 4 /\
  count isWorldUpdate (trace r) = 12.
Proof. vm_compute. repeat split. Qed.

(** ** render: the world update *)

Section RenderWorld.

Variable env : Env.

(** *** The timers *)

Lemma updateLoseTimer_eq (e : float) (m : Machine) :
  updateLoseTimer env e m =
  let lose := loseCountDownRemaining (score (stage m)) in
  if (lose =? sentinel)%float then Ok tt m []
  else if (lose - e / 1000 <? 0)%float
       then endLevel env false (withLoseTimer (lose - e / 1000)%float m)
       else Ok tt (withLoseTimer (lose - e / 1000)%float m) [].
Proof.
  unfold updateLoseTimer, bind, this, update. cbv zeta.
  destruct (loseCountDownRemaining (score (stage m)) =? sentinel)%float;
    [reflexivity|].
  cbv beta iota. unfold negb, prefix.
  change (loseCountDownRemaining (score (stage (mkMachine _ _ _ _))))
    with (loseCountDownRemaining (score (stage m)) - e / 1000)%float.
  fold (withStage (fun s => set_score (set_loseCountDownRemaining
         (loseCountDownRemaining (score s) - e / 1000)%float (score s)) s) m).
  change (withStage _ m)
    with (withLoseTimer (loseCountDownRemaining (score (stage m)) - e / 1000)%float m).
  destruct (loseCountDownRemaining (score (stage m)) - e / 1000 <? 0)%float.
  - destruct (endLevel env false _); reflexivity.
  - reflexivity.
Qed.

Lemma updateWinTimer_eq (e : float) (m : Machine) :
  updateWinTimer env e m =
  let win := winCountRemaining (score (stage m)) in
  if (win =? sentinel)%float then Ok tt m []
  else if (win - e / 1000 <? 0)%float
       then endLevel env true (withWinTimer (win - e / 1000)%float m)
       else Ok tt (withWinTimer (win - e / 1000)%float m) [].
Proof.
  unfold updateWinTimer, bind, this, update. cbv zeta.
  destruct (winCountRemaining (score (stage m)) =? sentinel)%float;
    [reflexivity|].
  cbv beta iota. unfold negb, prefix.
  change (winCountRemaining (score (stage (mkMachine _ _ _ _))))
    with (winCountRemaining (score (stage m)) - e / 1000)%float.
  fold (withStage (fun s => set_score (set_winCountRemaining
         (winCountRemaining (score s) - e / 1000)%float (score s)) s) m).
  change (withStage _ m)
    with (withWinTimer (winCountRemaining (score (stage m)) - e / 1000)%float m).
  destruct (winCountRemaining (score (stage m)) - e / 1000 <? 0)%float.
  - destruct (endLevel env true _); reflexivity.
  - reflexivity.
Qed.

Lemma updateStopWatch_eq (e : float) (m : Machine) :
  updateStopWatch e m =
  let watch := stopWatchProgress (score (stage m)) in
  if (watch =? sentinel)%float then Ok tt m []
  else Ok tt (withStopWatch (watch + e / 1000)%float m) [].
Proof.
  unfold updateStopWatch, bind, this, update. cbv zeta.
  destruct (stopWatchProgress (score (stage m)) =? sentinel)%float; reflexivity.
Qed.

Lemma updateLoseTimer_returned (e : float) (m : Machine) :
  returned (updateLoseTimer env e m) = true.
Proof.
  rewrite updateLoseTimer_eq. case_timer; auto using endLevel_returned.
Qed.

Lemma updateWinTimer_returned (e : float) (m : Machine) :
  returned (updateWinTimer env e m) = true.
Proof.
  rewrite updateWinTimer_eq. case_timer; auto using endLevel_returned.
Qed.

Lemma updateStopWatch_returned (e : float) (m : Machine) :
  returned (updateStopWatch e m) = true.
Proof.
  rewrite updateStopWatch_eq. cbv zeta. destruct (_ =? _)%float; reflexivity.
Qed.

Lemma updateStopWatch_trace (e : float) (m : Machine) :
  trace (updateStopWatch e m) = [].
Proof.
  rewrite updateStopWatch_eq. cbv zeta. destruct (_ =? _)%float; reflexivity.
Qed.

Lemma updateLoseTimer_kind (e : float) (m : Machine) :
  forallb beforeQueues (trace (updateLoseTimer env e m)) = true.
Proof. rewrite updateLoseTimer_eq. case_timer; auto using endLevel_kind. Qed.

Lemma updateWinTimer_kind (e : float) (m : Machine) :
  forallb beforeQueues (trace (updateWinTimer env e m)) = true.
Proof. rewrite updateWinTimer_eq. case_timer; auto using endLevel_kind. Qed.

Lemma updateLoseTimer_no_physics (e : float) (m : Machine) :
  List.filter isAdvanceWorld (trace (updateLoseTimer env e m)) = [].
Proof.
  rewrite updateLoseTimer_eq. case_timer; auto using endLevel_no_physics.
Qed.

Lemma updateWinTimer_no_physics (e : float) (m : Machine) :
  List.filter isAdvanceWorld (trace (updateWinTimer env e m)) = [].
Proof.
  rewrite updateWinTimer_eq. case_timer; auto using endLevel_no_physics.
Qed.

Lemma updateLoseTimer_count (e : float) (m : Machine) (b : bool) :
  count (isEndLevel b) (trace (updateLoseTimer env e m)) =
  let lose := loseCountDownRemaining (score (stage m)) in
  if negb b && negb (lose =? sentinel)%float && (lose - e / 1000 <? 0)%float
  then 1 else 0.
Proof.
  rewrite updateLoseTimer_eq. case_timer; try (destruct b; reflexivity).
  rewrite endLevel_count. destruct b; reflexivity.
Qed.

Lemma updateWinTimer_count (e : float) (m : Machine) (b : bool) :
  count (isEndLevel b) (trace (updateWinTimer env e m)) =
  let win := winCountRemaining (score (stage m)) in
  if b && negb (win =? sentinel)%float && (win - e / 1000 <? 0)%float
  then 1 else 0.
Proof.
  rewrite updateWinTimer_eq. case_timer; try (destruct b; reflexivity).
  rewrite endLevel_count. destruct b; reflexivity.
Qed.

(** The timers after the three timer steps when no countdown runs out. *)
Lemma timers_advance (e : float) (m0 : Machine) :
  let lose := loseCountDownRemaining (score (stage m0)) in
  let win := winCountRemaining (score (stage m0)) in
  let watch := stopWatchProgress (score (stage m0)) in
  expires e lose = false ->
  expires e win = false ->
  score (stage (atWinTimer env e m0)) = mkScore (countDown e lose) win watch /\
  score (stage (atStopWatch env e m0)) =
    mkScore (countDown e lose) (countDown e win) watch /\
  score (stage (atTilt env e m0)) =
    mkScore (countDown e lose) (countDown e win) (countUp e watch).
Proof.
  intros lose win watch Hl Hw.
  pose proof (playMusic_score m0) as Hs. fold (atLoseTimer m0) in Hs.
  assert (H1 : score (stage (atWinTimer env e m0)) =
               mkScore (countDown e lose) win watch).
  { unfold atWinTimer. rewrite updateLoseTimer_eq. cbv zeta. rewrite Hs.
    fold lose. unfold countDown. unfold expires in Hl.
    destruct (lose =? sentinel)%float.
    - unfold final. rewrite Hs. subst lose win watch.
      destruct (score (stage m0)); reflexivity.
    - simpl in Hl. rewrite Hl.
      cbn [final withLoseTimer withStage stage set_score score].
      rewrite Hs. reflexivity. }
  assert (H2 : score (stage (atStopWatch env e m0)) =
               mkScore (countDown e lose) (countDown e win) watch).
  { unfold atStopWatch. rewrite updateWinTimer_eq. cbv zeta. rewrite H1.
    cbn [winCountRemaining]. unfold countDown. unfold expires in Hw.
    destruct (win =? sentinel)%float.
    - exact H1.
    - simpl in Hw. rewrite Hw.
      cbn [final withWinTimer withStage stage set_score score].
      rewrite H1. reflexivity. }
  split; [exact H1|]. split; [exact H2|].
  unfold atTilt. rewrite updateStopWatch_eq. cbv zeta. rewrite H2.
  cbn [stopWatchProgress]. unfold countUp.
  destruct (watch =? sentinel)%float.
  - exact H2.
  - cbn [final withStopWatch withStage stage set_score score].
    rewrite H2. reflexivity.
Qed.

(** *** From the frame colour to the physics advance *)


(** The path [render] takes with no overlay, up to the physics advance, and
    what remains to be done from there. *)
Lemma updateWorld_eq (fuel : nat) (e : float) (m0 : Machine) :
  updateWorld env fuel e m0 =
  prefix (untilPhysics env e m0)
    ((runOneTimeEvents env fuel >> runRepeatEvents env fuel >> draw env e)
       (atOneTimeEvents env e m0)).
Proof.
  unfold updateWorld, untilPhysics.
  unfold bind at 1. unfold this at 1. cbv beta iota. rewrite prefix_nil.
  unfold bind at 1. unfold emit at 1. cbv beta iota.
  rewrite <- !prefix_prefix. f_equal.
  rewrite (bind_Ok _ _ _ _ _ _ (returned_Ok _ (playMusic_returned m0))).
  f_equal. fold (atLoseTimer m0).
  unfold updateTimers. rewrite bind_assoc.
  rewrite (bind_Ok _ _ _ _ _ _
             (returned_Ok _ (updateLoseTimer_returned e (atLoseTimer m0)))).
  f_equal. fold (atWinTimer env e m0).
  rewrite bind_assoc.
  rewrite (bind_Ok _ _ _ _ _ _
             (returned_Ok _ (updateWinTimer_returned e (atWinTimer env e m0)))).
  f_equal. fold (atStopWatch env e m0).
  rewrite (bind_Ok _ _ _ _ _ _
             (returned_Ok _ (updateStopWatch_returned e (atStopWatch env e m0)))).
  rewrite updateStopWatch_trace, prefix_nil. fold (atTilt env e m0).
  reflexivity.
Qed.

Lemma untilPhysics_kind (e : float) (m0 : Machine) :
  forallb beforeQueues (untilPhysics env e m0) = true.
Proof.
  unfold untilPhysics.
  rewrite !forallb_app, playMusic_kind, updateLoseTimer_kind, updateWinTimer_kind.
  reflexivity.
Qed.

Lemma untilPhysics_count_endLevel (e : float) (m0 : Machine) (b : bool) :
  count (isEndLevel b) (untilPhysics env e m0) =
  count (isEndLevel b) (trace (updateLoseTimer env e (atLoseTimer m0))) +
  count (isEndLevel b) (trace (updateWinTimer env e (atWinTimer env e m0))).
Proof.
  unfold untilPhysics. rewrite !count_app.
  unfold count at 2. rewrite (playMusic_filter (isEndLevel b) m0) by reflexivity.
  change (count (isEndLevel b) [ESetFrameColor (backgroundColor (stage m0))]) with 0.
  change (count (isEndLevel b) (trace (handleTilt env (atTilt env e m0)))) with 0.
  change (count (isEndLevel b) (trace (advanceWorld env (atPhysics env e m0)))) with 0.
  simpl length. lia.
Qed.

Lemma untilPhysics_physics (e : float) (m0 : Machine) :
  List.filter isAdvanceWorld (untilPhysics env e m0) =
  [EAdvanceWorld (world (stage (atPhysics env e m0))) (1 / 45)%float 8%float 3%float].
Proof.
  unfold untilPhysics. rewrite !List.filter_app.
  rewrite (playMusic_filter isAdvanceWorld m0) by reflexivity.
  rewrite updateLoseTimer_no_physics, updateWinTimer_no_physics.
  reflexivity.
Qed.

(** *** The event queues *)

(** A [for]-[of] loop over a queue records the queued events it runs and
    nothing else, whether or not it comes to an end. *)
Lemma forOf_kind (fuel : nat) (arr : Machine -> list Closure) (i : nat) (m : Machine) :
  forallb isQueued (trace (forOf env fuel arr i m)) = true.
Proof.
  revert i m. induction fuel as [|fuel IH]; intros i m; simpl; [reflexivity|].
  destruct (arr m !! i) as [c|]; [|reflexivity].
  apply forallb_bind; [reflexivity|]. intros _ m1. apply IH.
Qed.

Lemma afterPhysics_kind (fuel : nat) (e : float) (m : Machine) :
  forallb fromQueues
    (trace ((runOneTimeEvents env fuel >> runRepeatEvents env fuel >> draw env e) m))
  = true.
Proof.
  assert (Hq : forall ev, isQueued ev = true -> fromQueues ev = true)
    by (intros []; simpl; congruence).
  apply forallb_bind.
  - unfold runOneTimeEvents. apply forallb_bind; [reflexivity|]. intros s m1.
    apply forallb_bind; [|reflexivity].
    apply (forallb_weaken _ _ _ Hq), forOf_kind.
  - intros _ m1. apply forallb_bind.
    + unfold runRepeatEvents. apply forallb_bind; [reflexivity|]. intros s m2.
      apply (forallb_weaken _ _ _ Hq), forOf_kind.
    + intros _ m2. reflexivity.
Qed.







(** *** The whole call *)

(** [render] with no overlay to show, cut at the physics advance. *)
Lemma render_world_eq (fuel : nat) (e : float) (m : Machine) :
  overlay (stage (final (sceneBuilders env m))) = None ->
  render env fuel e m =
  prefix (trace (sceneBuilders env m) ++ untilPhysics env e (final (sceneBuilders env m)))
    ((runOneTimeEvents env fuel >> runRepeatEvents env fuel >> draw env e)
       (atOneTimeEvents env e (final (sceneBuilders env m)))).
Proof.
  intros Ho. rewrite render_eq, Ho, updateWorld_eq, prefix_prefix. reflexivity.
Qed.

(** Filtering the trace of such a [render] for events that neither the
    scene builders nor the steps after the physics advance record. *)
Lemma render_world_filter (fuel : nat) (e : float) (m : Machine)
  (p : Event -> bool) :
  overlay (stage (final (sceneBuilders env m))) = None ->
  (forall ev, isBuilding ev = true -> p ev = false) ->
  (forall ev, fromQueues ev = true -> p ev = false) ->
  List.filter p (trace (render env fuel e m)) =
  List.filter p (untilPhysics env e (final (sceneBuilders env m))).
Proof.
  intros Ho Hb Hq. rewrite (render_world_eq fuel e m Ho).
  rewrite trace_prefix, !List.filter_app.
  rewrite (filter_none p isBuilding _ Hb (sceneBuilders_kind env m)).
  rewrite (filter_none p fromQueues _ Hq (afterPhysics_kind fuel e _)).
  rewrite app_nil_r. reflexivity.
Qed.

(** C3.  In a render call that reaches the world-update path (no overlay to
    show once the builders are dealt with), with m0 the state on entry of
    that path:
    - a lose countdown other than -100 becomes its value minus
      elapsedTime / 1000 and endLevel(false) is entered right then, in the
      state with the new value, exactly when the new value is below zero; a
      lose countdown of -100 leaves state and trace as they are;
    - render enters endLevel(false) once when the lose countdown is not -100
      and its new value is below zero, and not at all otherwise;
    - the same holds of the win countdown and endLevel(true), the countdown
      being the one of the state the lose step ends in;
    - with 0.5 on the lose countdown and an elapsedTime of 600 the new value
      is negative and render enters endLevel(false) exactly once.
    The counts hold for every bound on the queue loops, so also of a call
    whose queues never run dry. *)
Theorem render_countdowns (fuel : nat) (e : float) (m : Machine) :
  let m0 := final (sceneBuilders env m) in
  overlay (stage m0) = None ->
  let lose := loseCountDownRemaining (score (stage m0)) in
  let ml := atLoseTimer m0 in
  let mw := atWinTimer env e m0 in
  let win := winCountRemaining (score (stage mw)) in
  render env fuel e m =
    prefix (trace (sceneBuilders env m) ++ untilPhysics env e m0)
      ((runOneTimeEvents env fuel >> runRepeatEvents env fuel >> draw env e)
         (atOneTimeEvents env e m0)) /\
  updateLoseTimer env e ml =
    (if (lose =? sentinel)%float then Ok tt ml []
     else if (lose - e / 1000 <? 0)%float
          then endLevel env false (withLoseTimer (lose - e / 1000)%float ml)
          else Ok tt (withLoseTimer (lose - e / 1000)%float ml) []) /\
  count (isEndLevel false) (trace (render env fuel e m)) =
    (if negb (lose =? sentinel)%float && (lose - e / 1000 <? 0)%float
     then 1 else 0) /\
  updateWinTimer env e mw =
    (if (win =? sentinel)%float then Ok tt mw []
     else if (win - e / 1000 <? 0)%float
          then endLevel env true (withWinTimer (win - e / 1000)%float mw)
          else Ok tt (withWinTimer (win - e / 1000)%float mw) []) /\
  count (isEndLevel true) (trace (render env fuel e m)) =
    (if negb (win =? sentinel)%float && (win - e / 1000 <? 0)%float
     then 1 else 0) /\
  (lose = 0.5%float -> e = 600%float ->
   (lose - e / 1000 <? 0)%float = true /\
   count (isEndLevel false) (trace (render env fuel e m)) = 1).
Proof.
  intros m0 Ho lose ml mw win.
  assert (Hlose : loseCountDownRemaining (score (stage ml)) = lose)
    by (unfold ml, atLoseTimer; rewrite playMusic_score; reflexivity).
  assert (Hcount : forall b,
    count (isEndLevel b) (trace (render env fuel e m)) =
    count (isEndLevel b) (trace (updateLoseTimer env e ml)) +
    count (isEndLevel b) (trace (updateWinTimer env e mw))).
  { intros b. unfold count at 1.
    rewrite (render_world_filter fuel e m (isEndLevel b) Ho
               ltac:(other_kind) ltac:(other_kind)).
    apply untilPhysics_count_endLevel. }
  assert (Hfalse : count (isEndLevel false) (trace (render env fuel e m)) =
                   (if negb (lose =? sentinel)%float && (lose - e / 1000 <? 0)%float
                    then 1 else 0)).
  { rewrite Hcount, updateLoseTimer_count, updateWinTimer_count. cbv zeta.
    rewrite Hlose.
    destruct (lose =? sentinel)%float, (lose - e / 1000 <? 0)%float;
      reflexivity. }
  split; [exact (render_world_eq fuel e m Ho)|].
  split; [rewrite updateLoseTimer_eq; cbv zeta; rewrite Hlose; reflexivity|].
  split; [exact Hfalse|].
  split; [rewrite updateWinTimer_eq; reflexivity|].
  split.
  - rewrite Hcount, updateLoseTimer_count, updateWinTimer_count. cbv zeta.
    fold win.
    destruct (win =? sentinel)%float, (win - e / 1000 <? 0)%float;
      reflexivity.
  - intros Hl He. rewrite Hfalse, Hl, He. split; reflexivity.
Qed.

(** C9.  In a render call that reaches the world-update path the physics
    world is advanced once, by advanceWorld(1 / 45, 8, 3): a timestep of
    1/45 s (the double 0x1.6c16c16c16c17p-6, about 0.0222), 8 velocity and
    3 position iterations, whatever elapsedTime is.  The timers of the same
    call move by elapsedTime / 1000, on every such pass and before the
    physics advance: in the state each timer step finds, a lose countdown
    that is not -100 becomes its value minus elapsedTime / 1000 (and
    endLevel(false) is entered with that value when it is below zero), then
    a win countdown that is not -100 becomes its value minus
    elapsedTime / 1000 (and endLevel(true) is entered when that is below
    zero), then a stopwatch that is not -100 becomes its value plus
    elapsedTime / 1000; a timer at -100 stays.  So the stopwatch read when
    the tilt is handled is the one the stopwatch step found, moved by
    elapsedTime / 1000 unless it is -100, and when no countdown runs out in
    the call the three timers are those render started with, each moved by
    elapsedTime / 1000 unless it is -100. *)
Theorem render_fixed_timestep (fuel : nat) (e : float) (m : Machine) :
  let m0 := final (sceneBuilders env m) in
  overlay (stage m0) = None ->
  let lose := loseCountDownRemaining (score (stage m0)) in
  let win := winCountRemaining (score (stage m0)) in
  let watch := stopWatchProgress (score (stage m0)) in
  let ml := atLoseTimer m0 in
  let mw := atWinTimer env e m0 in
  let ms := atStopWatch env e m0 in
  let win' := winCountRemaining (score (stage mw)) in
  let watch' := stopWatchProgress (score (stage ms)) in
  List.filter isAdvanceWorld (trace (render env fuel e m)) =
    [EAdvanceWorld (world (stage (atPhysics env e m0))) (1 / 45)%float 8%float 3%float] /\
  count isAdvanceWorld (trace (render env fuel e m)) = 1 /\
  (1 / 45)%float = 0x1.6c16c16c16c17p-6%float /\
  atTilt env e m0 = final (updateTimers env e ml) /\
  atPhysics env e m0 = final (handleTilt env (atTilt env e m0)) /\
  updateLoseTimer env e ml =
    (if (lose =? sentinel)%float then Ok tt ml []
     else if (lose - e / 1000 <? 0)%float
          then endLevel env false (withLoseTimer (lose - e / 1000)%float ml)
          else Ok tt (withLoseTimer (lose - e / 1000)%float ml) []) /\
  updateWinTimer env e mw =
    (if (win' =? sentinel)%float then Ok tt mw []
     else if (win' - e / 1000 <? 0)%float
          then endLevel env true (withWinTimer (win' - e / 1000)%float mw)
          else Ok tt (withWinTimer (win' - e / 1000)%float mw) []) /\
  updateStopWatch e ms =
    (if (watch' =? sentinel)%float then Ok tt ms []
     else Ok tt (withStopWatch (watch' + e / 1000)%float ms) []) /\
  stopWatchProgress (score (stage (atTilt env e m0))) = countUp e watch' /\
  (expires e lose = false ->
   expires e win = false ->
   win' = win /\ watch' = watch /\
   score (stage (atTilt env e m0)) =
   mkScore (countDown e lose) (countDown e win) (countUp e watch)).
Proof.
  intros m0 Ho lose win watch ml mw ms win' watch'.
  assert (Hf : List.filter isAdvanceWorld (trace (render env fuel e m)) =
               [EAdvanceWorld (world (stage (atPhysics env e m0)))
                              (1 / 45)%float 8%float 3%float]).
  { rewrite (render_world_filter fuel e m isAdvanceWorld Ho
               ltac:(other_kind) ltac:(other_kind)).
    apply untilPhysics_physics. }
  split; [exact Hf|].
  split; [unfold count; rewrite Hf; reflexivity|].
  split; [reflexivity|].
  split.
  { unfold updateTimers.
    rewrite (final_bind _ _ _ _ _ _
               (returned_Ok _ (updateLoseTimer_returned e (atLoseTimer m0)))).
    fold (atWinTimer env e m0).
    rewrite (final_bind _ _ _ _ _ _
               (returned_Ok _ (updateWinTimer_returned e (atWinTimer env e m0)))).
    reflexivity. }
  split; [reflexivity|].
  split.
  { rewrite updateLoseTimer_eq. cbv zeta. unfold ml, atLoseTimer.
    rewrite playMusic_score. reflexivity. }
  split; [rewrite updateWinTimer_eq; reflexivity|].
  split; [rewrite updateStopWatch_eq; reflexivity|].
  split.
  { unfold atTilt. rewrite updateStopWatch_eq. cbv zeta. fold ms watch'.
    unfold countUp. destruct (watch' =? sentinel)%float; reflexivity. }
  intros Hl Hw.
  destruct (timers_advance e m0 Hl Hw) as (H1 & H2 & H3).
  unfold win', watch', mw, ms. rewrite H1, H2. repeat split. exact H3.
Qed.


End RenderWorld.

Lemma render_countdowns_witness :
  let m := withLoseTimer 0.5%float Sample.level in
  overlay (stage (final (sceneBuilders Sample.game m))) = None /\
  count (isEndLevel false) (trace (render Sample.game 2 600%float m)) = 1 /\
  count (isEndLevel true) (trace (render Sample.game 2 600%float m)) = 0.
Proof.
  pose proof (render_countdowns Sample.game 2 600%float
                (withLoseTimer 0.5%float Sample.level) eq_refl) as H.
  cbv zeta in H. destruct H as (_ & _ & H3 & _ & H5 & _).
  exact (conj eq_refl (conj H3 H5)).
Defined.

Lemma render_fixed_timestep_witness :
  let m := withStage (set_score (mkScore sentinel 20%float 0%float)) Sample.level in
  overlay (stage (final (sceneBuilders Sample.game m))) = None /\
  List.filter isAdvanceWorld (trace (render Sample.game 2 250%float m)) =
    [EAdvanceWorld 0 (1 / 45)%float 8%float 3%float] /\
  stopWatchProgress (score (stage (atTilt Sample.game 250%float m))) = 0.25%float /\
  score (stage (atTilt Sample.game 250%float m)) =
    mkScore sentinel 19.75%float 0.25%float.
Proof.
  pose proof (render_fixed_timestep Sample.game 2 250%float
                (withStage (set_score (mkScore sentinel 20%float 0%float))
                           Sample.level) eq_refl) as H.
  cbv zeta in H. destruct H as (H1 & _ & _ & _ & _ & _ & _ & _ & H9 & H10).
  destruct (H10 eq_refl eq_refl) as (_ & _ & H11).
  exact (conj eq_refl (conj H1 (conj H9 H11))).
Defined.



(** * Further properties *)

(** ** The music controls *)

Section MusicControls.

Lemma pauseMusic_eq (m : Machine) :
  pauseMusic m =
  match musicPlaying (stage m), music (stage m) with
  | true, Some snd => Ok tt (withStage (set_musicPlaying false) m) [EMusicStop snd]
  | true, None => Stop TypeError (withStage (set_musicPlaying false) m) []
  | false, _ => Ok tt m []
  end.
Proof.
  destruct m as [s q1 q2 n].
  destruct s as [w h ov ghf bg wb winb lb pb sc bgr fg mu mp pool dbg].
  destruct mp, mu; reflexivity.
Qed.

Lemma stopMusic_eq (m : Machine) :
  stopMusic m =
  match musicPlaying (stage m), music (stage m) with
  | true, Some snd =>
      Ok tt (withStage (set_musicPlaying false) m)
         [EConsoleLog "stopping music"; EMusicStop snd]
  | true, None =>
      Stop TypeError (withStage (set_musicPlaying false) m)
           [EConsoleLog "stopping music"]
  | false, _ => Ok tt m []
  end.
Proof.
  destruct m as [s q1 q2 n].
  destruct s as [w h ov ghf bg wb winb lb pb sc bgr fg mu mp pool dbg].
  destruct mp, mu; reflexivity.
Qed.

(** The music controls keep "music marked as playing is set", and in a state
    where it holds pauseMusic and stopMusic return; none of the three assigns
    the music field; setMusic with a sound keeps it too. *)
Theorem music_controls_keep_invariant (m : Machine) :
  musicOk (stage m) = true ->
  returned (pauseMusic m) = true /\
  returned (stopMusic m) = true /\
  musicOk (stage (final (playMusic m))) = true /\
  musicOk (stage (final (pauseMusic m))) = true /\
  musicOk (stage (final (stopMusic m))) = true /\
  music (stage (final (playMusic m))) = music (stage m) /\
  music (stage (final (pauseMusic m))) = music (stage m) /\
  music (stage (final (stopMusic m))) = music (stage m) /\
  (forall snd, musicOk (stage (final (setMusic (Some snd) m))) = true).
Proof.
  rewrite playMusic_eq, pauseMusic_eq, stopMusic_eq.
  destruct m as [s q1 q2 n].
  destruct s as [w h ov ghf bg wb winb lb pb sc bgr fg mu mp pool dbg].
  unfold musicOk. cbn [stage musicPlaying music].
  destruct mp, mu; intros H; try discriminate H; repeat split;
    intros; unfold setMusic, update, musicOk; simpl; reflexivity.
Qed.

(** Starting and stopping is a round trip: from a state where no music is
    playing, playMusic followed by stopMusic (or by pauseMusic) returns and
    ends in the state it started from; with a sound set the sound is played
    and then stopped once, with none set nothing is called.  In every state
    stopMusic is pauseMusic after the console log (made only when music is
    marked as playing): the two return in the same states and throw in the
    same states, end in the same state and make the same call on the sound. *)
Theorem play_then_stop_round_trip (m : Machine) :
  musicPlaying (stage m) = false ->
  (playMusic >> stopMusic) m =
    Ok tt m match music (stage m) with
            | Some snd => [EMusicPlay snd; EConsoleLog "stopping music"; EMusicStop snd]
            | None => []
            end /\
  (playMusic >> pauseMusic) m =
    Ok tt m match music (stage m) with
            | Some snd => [EMusicPlay snd; EMusicStop snd]
            | None => []
            end /\
  (forall m',
     stopMusic m' =
       prefix (if musicPlaying (stage m')
               then [EConsoleLog "stopping music"] else [])
              (pauseMusic m') /\
     returned (pauseMusic m') = returned (stopMusic m') /\
     final (pauseMusic m') = final (stopMusic m') /\
     List.filter isMusicStop (trace (pauseMusic m')) =
     List.filter isMusicStop (trace (stopMusic m'))).
Proof.
  intros Hp. split; [|split].
  - unfold bind. rewrite playMusic_eq, Hp.
    destruct m as [s q1 q2 n].
    destruct s as [w h ov ghf bg wb winb lb pb sc bgr fg mu mp pool dbg].
    simpl in Hp. subst mp. destruct mu; reflexivity.
  - unfold bind. rewrite playMusic_eq, Hp.
    destruct m as [s q1 q2 n].
    destruct s as [w h ov ghf bg wb winb lb pb sc bgr fg mu mp pool dbg].
    simpl in Hp. subst mp. destruct mu; reflexivity.
  - intros m'. rewrite pauseMusic_eq, stopMusic_eq.
    destruct (musicPlaying (stage m')), (music (stage m')); repeat split.
Qed.

(** onScreenChange throws exactly when music is marked as playing and not
    set, and then it has done nothing but clear musicPlaying and log: a
    second onScreenChange right after it returns and leaves the defaults.
    Whether or not the first call returned, the second does. *)
Theorem onScreenChange_recovers (m : Machine) :
  let r := onScreenChange m in
  let r2 := onScreenChange (final r) in
  returned r = musicOk (stage m) /\
  (returned r = false ->
   r = Stop TypeError (withStage (set_musicPlaying false) m)
            [EConsoleLog "stopping music"]) /\
  returned r2 = true /\
  stage (final r2) =
    resetStage (if returned r then 4 + nextId m else nextId m) (stage m).
Proof.
  cbv zeta.
  destruct (musicOk (stage m)) eqn:Hok.
  - assert (Hm : musicPlaying (stage m) = true -> music (stage m) <> None).
    { unfold musicOk in Hok. intros Hp. rewrite Hp in Hok.
      destruct (music (stage m)); [discriminate|discriminate Hok]. }
    rewrite (onScreenChange_eq m Hm). unfold final, returned.
    rewrite onScreenChange_eq by discriminate.
    repeat split. discriminate.
  - destruct m as [s q1 q2 n].
    destruct s as [w h ov ghf bg wb winb lb pb sc bgr fg mu mp pool dbg].
    unfold musicOk in Hok. cbn [stage musicPlaying music] in Hok.
    destruct mp, mu; try discriminate Hok. repeat split.
Qed.

End MusicControls.

Lemma music_controls_keep_invariant_witness :
  let m := final ((setMusic (Some 8) >> playMusic) Sample.level) in
  musicOk (stage m) = true /\
  returned (stopMusic m) = true /\
  musicOk (stage (final (stopMusic m))) = true.
Proof.
  pose proof (music_controls_keep_invariant
                (final ((setMusic (Some 8) >> playMusic) Sample.level)) eq_refl) as H.
  destruct H as (_ & H2 & _ & _ & H5 & _).
  exact (conj eq_refl (conj H2 H5)).
Defined.

Lemma play_then_stop_round_trip_witness :
  let m := final (setMusic (Some 8) Sample.level) in
  musicPlaying (stage m) = false /\
  (playMusic >> stopMusic) m =
    Ok tt m [EMusicPlay 8; EConsoleLog "stopping music"; EMusicStop 8].
Proof.
  split; [reflexivity|].
  exact (proj1 (play_then_stop_round_trip
                  (final (setMusic (Some 8) Sample.level)) eq_refl)).
Defined.

(** ** What render records, and what it never does *)

Section RenderKinds.

Variable env : Env.

(** [endLevel] records its entry, an overlay, a builder or the sequencer. *)
Lemma endLevel_ending (win : bool) (m : Machine) :
  forallb isEnding (trace (endLevel env win m)) = true.
Proof. rewrite endLevel_eq. case_builder; destruct win; reflexivity. Qed.

Lemma updateLoseTimer_ending (e : float) (m : Machine) :
  forallb isEnding (trace (updateLoseTimer env e m)) = true.
Proof. rewrite updateLoseTimer_eq. case_timer; auto using endLevel_ending. Qed.

Lemma updateWinTimer_ending (e : float) (m : Machine) :
  forallb isEnding (trace (updateWinTimer env e m)) = true.
Proof. rewrite updateWinTimer_eq. case_timer; auto using endLevel_ending. Qed.

(** The trace of [render], on either path. *)
Lemma render_trace (fuel : nat) (e : float) (m : Machine) :
  trace (render env fuel e m) =
  trace (sceneBuilders env m) ++
  match overlay (stage (final (sceneBuilders env m))) with
  | Some o => [ESceneRender ROverlay o e]
  | None =>
      untilPhysics env e (final (sceneBuilders env m)) ++
      trace ((runOneTimeEvents env fuel >> runRepeatEvents env fuel >> draw env e)
               (atOneTimeEvents env e (final (sceneBuilders env m))))
  end.
Proof.
  rewrite render_eq, trace_prefix. f_equal.
  destruct (overlay (stage (final (sceneBuilders env m)))); [reflexivity|].
  rewrite updateWorld_eq, trace_prefix. reflexivity.
Qed.

(** Whatever the game code does and whether or not the call returns, render
    records only: overlay constructions and builder calls, the frame colour,
    play() on the music, entries of endLevel and the sequencer calls, the
    accelerometer, tilt, the physics advance, queued events, the camera and
    the rendering of scenes.  It never stops the music, never logs, never
    clears the level facts, never delivers a gesture and never constructs a
    world or a parallax scene. *)
Theorem render_never_resets (fuel : nat) (e : float) (m : Machine) :
  forallb renderKind (trace (render env fuel e m)) = true /\
  List.filter isForeign (trace (render env fuel e m)) = [] /\
  count isMusicStop (trace (render env fuel e m)) = 0.
Proof.
  assert (Hk : forallb renderKind (trace (render env fuel e m)) = true).
  { rewrite render_trace, forallb_app. apply andb_true_intro. split.
    - apply (forallb_weaken isBuilding); [|apply sceneBuilders_kind].
      intros ev H. unfold renderKind. rewrite H. reflexivity.
    - destruct (overlay (stage (final (sceneBuilders env m)))); [reflexivity|].
      rewrite forallb_app. apply andb_true_intro. split.
      + apply (forallb_weaken beforeQueues); [|apply untilPhysics_kind].
        intros ev H. unfold renderKind. rewrite H.
        destruct (isBuilding ev); reflexivity.
      + apply (forallb_weaken fromQueues); [|apply afterPhysics_kind].
        intros ev H. unfold renderKind. rewrite H. apply orb_true_r. }
  split; [exact Hk|]. split.
  - apply (filter_none isForeign renderKind); [|exact Hk].
    intros [] H; try reflexivity; try discriminate H;
      destruct k; try reflexivity; discriminate H.
  - apply (count_none isMusicStop renderKind); [|exact Hk].
    intros [] H; try reflexivity; discriminate H.
Qed.

(** [endLevel] calls at most one builder, and so does a countdown step. *)
Lemma endLevel_builders (win : bool) (m : Machine) :
  count isBuilderCall (trace (endLevel env win m)) <= 1.
Proof.
  rewrite endLevel_eq. case_builder; destruct win; unfold count; simpl; lia.
Qed.

Lemma updateLoseTimer_builders (e : float) (m : Machine) :
  count isBuilderCall (trace (updateLoseTimer env e m)) <= 1.
Proof.
  rewrite updateLoseTimer_eq. case_timer;
    first [apply endLevel_builders | unfold count; simpl; lia].
Qed.

Lemma updateWinTimer_builders (e : float) (m : Machine) :
  count isBuilderCall (trace (updateWinTimer env e m)) <= 1.
Proof.
  rewrite updateWinTimer_eq. case_timer;
    first [apply endLevel_builders | unfold count; simpl; lia].
Qed.

Lemma untilPhysics_builders (e : float) (m0 : Machine) :
  count isBuilderCall (untilPhysics env e m0) <= 2.
Proof.
  unfold untilPhysics. rewrite !count_app.
  unfold count at 2. rewrite (playMusic_filter isBuilderCall m0) by reflexivity.
  change (count isBuilderCall [ESetFrameColor (backgroundColor (stage m0))]) with 0.
  change (count isBuilderCall (trace (handleTilt env (atTilt env e m0)))) with 0.
  change (count isBuilderCall (trace (advanceWorld env (atPhysics env e m0)))) with 0.
  pose proof (updateLoseTimer_builders e (atLoseTimer m0)).
  pose proof (updateWinTimer_builders e (atWinTimer env e m0)).
  simpl length. lia.
Qed.

(** The scene builders of render are one-shot whatever they do: the welcome
    builder field is null right after the welcome statement and the pause
    builder field is null right after the pause statement, also when the
    builder that ran set its own field again; so no pause builder is ever
    pending when render tests for the overlay, and a welcome builder is
    pending there only if a pause builder was set when the welcome statement
    ended.  The two statements call at most two builders between them; a
    whole render call calls at most four, the other two being those endLevel
    calls for the lose and the win scene when a countdown passes below zero
    (a call that draws the overlay calls at most two). *)
Theorem scene_builders_one_shot (fuel : nat) (e : float) (m : Machine) :
  welcomeSceneBuilder (stage (final (showWelcomeScene env m))) = None /\
  pauseSceneBuilder (stage (final (showPauseScene env m))) = None /\
  pauseSceneBuilder (stage (final (sceneBuilders env m))) = None /\
  (pauseSceneBuilder (stage (final (showWelcomeScene env m))) = None ->
   welcomeSceneBuilder (stage (final (sceneBuilders env m))) = None) /\
  count isBuilderCall (trace (sceneBuilders env m)) <= 2 /\
  count isBuilderCall (trace (render env fuel e m)) <= 4 /\
  (overlay (stage (final (sceneBuilders env m))) <> None ->
   count isBuilderCall (trace (render env fuel e m)) <= 2).
Proof.
  assert (Hw : forall m', welcomeSceneBuilder (stage (final (showWelcomeScene env m'))) = None).
  { intros m'. rewrite showWelcomeScene_eq.
    destruct (welcomeSceneBuilder (stage m')) eqn:H; [reflexivity|exact H]. }
  assert (Hp : forall m', pauseSceneBuilder (stage (final (showPauseScene env m'))) = None).
  { intros m'. rewrite showPauseScene_eq.
    destruct (pauseSceneBuilder (stage m')) eqn:H; [reflexivity|exact H]. }
  assert (Hs : final (sceneBuilders env m) =
               final (showPauseScene env (final (showWelcomeScene env m)))).
  { assert (Hret : returned (showWelcomeScene env m) = true)
      by (rewrite showWelcomeScene_eq;
          destruct (welcomeSceneBuilder (stage m)); reflexivity).
    unfold sceneBuilders.
    rewrite (final_bind _ _ _ _ _ _ (returned_Ok _ Hret)). reflexivity. }
  assert (Hb : count isBuilderCall (trace (sceneBuilders env m)) <= 2).
  { unfold sceneBuilders, bind. rewrite showWelcomeScene_eq.
    destruct (welcomeSceneBuilder (stage m)); rewrite trace_prefix, showPauseScene_eq;
      match goal with
      | |- context [pauseSceneBuilder ?s] => destruct (pauseSceneBuilder s)
      end; unfold count; simpl; lia. }
  split; [apply Hw|]. split; [apply Hp|]. split; [rewrite Hs; apply Hp|].
  split; [|split; [exact Hb|]].
  - intros Hnone. rewrite Hs, showPauseScene_eq, Hnone. apply Hw.
  - rewrite render_trace, count_app.
    destruct (overlay (stage (final (sceneBuilders env m)))) as [o|].
    + change (count isBuilderCall [ESceneRender ROverlay o e]) with 0.
      split; [lia|]. intros _. lia.
    + split; [|intros H; contradiction H; reflexivity].
      rewrite count_app.
      rewrite (count_none isBuilderCall fromQueues _ ltac:(other_kind)
                 (afterPhysics_kind env fuel e _)).
      pose proof (untilPhysics_builders e (final (sceneBuilders env m))).
      lia.
Qed.

(** On the world-update path render calls play() on the music exactly when a
    sound is set and not marked as playing, once, and marks it as playing
    before the timers are examined; so music paused with pauseMusic is
    started again by the next render call that reaches this path. *)
Theorem render_starts_music (fuel : nat) (e : float) (m : Machine) :
  let m0 := final (sceneBuilders env m) in
  overlay (stage m0) = None ->
  List.filter isMusicPlay (trace (render env fuel e m)) =
    match musicPlaying (stage m0), music (stage m0) with
    | false, Some snd => [EMusicPlay snd]
    | _, _ => []
    end /\
  (music (stage m0) <> None -> musicPlaying (stage (atLoseTimer m0)) = true) /\
  (forall snd,
     welcomeSceneBuilder (stage m) = None ->
     pauseSceneBuilder (stage m) = None ->
     overlay (stage m) = None ->
     musicPlaying (stage m) = true ->
     music (stage m) = Some snd ->
     trace (pauseMusic m) = [EMusicStop snd] /\
     List.filter isMusicPlay (trace (render env fuel e (final (pauseMusic m)))) =
       [EMusicPlay snd]).
Proof.
  intros m0 Ho.
  assert (Hgen : forall m',
    overlay (stage (final (sceneBuilders env m'))) = None ->
    List.filter isMusicPlay (trace (render env fuel e m')) =
    match musicPlaying (stage (final (sceneBuilders env m'))),
          music (stage (final (sceneBuilders env m'))) with
    | false, Some snd => [EMusicPlay snd]
    | _, _ => []
    end).
  { intros m' Ho'.
    rewrite (render_world_filter env fuel e m' isMusicPlay Ho'
               ltac:(other_kind) ltac:(other_kind)).
    unfold untilPhysics. rewrite !List.filter_app.
    rewrite (filter_none isMusicPlay isEnding _ ltac:(other_kind)
               (updateLoseTimer_ending e _)).
    rewrite (filter_none isMusicPlay isEnding _ ltac:(other_kind)
               (updateWinTimer_ending e _)).
    rewrite playMusic_eq.
    destruct (musicPlaying (stage (final (sceneBuilders env m')))),
             (music (stage (final (sceneBuilders env m')))); reflexivity. }
  split; [apply Hgen; exact Ho|]. split.
  - intros Hm. unfold atLoseTimer. rewrite playMusic_eq.
    destruct (musicPlaying (stage m0)) eqn:Hp, (music (stage m0)) eqn:Hs;
      unfold final; try congruence; reflexivity.
  - intros snd Hw Hp Hov Hplay Hmus.
    rewrite pauseMusic_eq, Hplay, Hmus. split; [reflexivity|].
    unfold final.
    assert (Hsb : sceneBuilders env (withStage (set_musicPlaying false) m) =
                  Ok tt (withStage (set_musicPlaying false) m) [])
      by (apply sceneBuilders_none; assumption).
    rewrite Hgen; rewrite Hsb; unfold final;
      cbn [stage withStage set_musicPlaying musicPlaying music overlay];
      [rewrite Hmus; reflexivity|exact Hov].
Qed.

(** After the physics advance nothing but queued events, the camera and the
    four layers: the overlay is not among them. *)
Lemma afterPhysics_draws (fuel : nat) (e : float) (m : Machine) :
  forallb queueOrDraw
    (trace ((runOneTimeEvents env fuel >> runRepeatEvents env fuel >> draw env e) m))
  = true.
Proof.
  assert (Hq : forall ev, isQueued ev = true -> queueOrDraw ev = true)
    by (intros []; simpl; congruence).
  apply forallb_bind.
  - unfold runOneTimeEvents. apply forallb_bind; [reflexivity|]. intros s m1.
    apply forallb_bind; [|reflexivity].
    apply (forallb_weaken _ _ _ Hq), forOf_kind.
  - intros _ m1. apply forallb_bind.
    + unfold runRepeatEvents. apply forallb_bind; [reflexivity|]. intros s m2.
      apply (forallb_weaken _ _ _ Hq), forOf_kind.
    + intros _ m2. reflexivity.
Qed.

(** Dismissing the overlay resumes the world: after clearOverlayScene, with
    no welcome or pause builder pending, the next render call draws no
    overlay and advances the physics world exactly once; clearing twice is
    clearing once. *)
Theorem clearOverlayScene_resumes_world (fuel : nat) (e : float) (m : Machine) :
  welcomeSceneBuilder (stage m) = None ->
  pauseSceneBuilder (stage m) = None ->
  let m' := final (clearOverlayScene m) in
  List.filter isOverlayRender (trace (render env fuel e m')) = [] /\
  count isAdvanceWorld (trace (render env fuel e m')) = 1 /\
  clearOverlayScene m' = Ok tt m' [].
Proof.
  intros Hw Hp m'.
  assert (Hsb : sceneBuilders env m' = Ok tt m' [])
    by (apply sceneBuilders_none; assumption).
  assert (Ho : overlay (stage (final (sceneBuilders env m'))) = None)
    by (rewrite Hsb; reflexivity).
  split; [|split].
  - rewrite render_trace, Ho, Hsb. cbn [trace app]. rewrite List.filter_app.
    rewrite (filter_none isOverlayRender beforeQueues _ ltac:(other_kind)
               (untilPhysics_kind env e _)).
    rewrite (filter_none isOverlayRender queueOrDraw _
               ltac:(intros [] H; try reflexivity; try discriminate H;
                     match goal with r : Recv |- _ => destruct r end;
                     first [reflexivity | discriminate H])
               (afterPhysics_draws fuel e _)).
    reflexivity.
  - unfold count.
    rewrite (render_world_filter env fuel e m' isAdvanceWorld Ho
               ltac:(other_kind) ltac:(other_kind)).
    rewrite untilPhysics_physics. reflexivity.
  - destruct m as [s q1 q2 n].
    destruct s as [w h ov ghf bg wb winb lb pb sc bgr fg mu mp pool dbg].
    reflexivity.
Qed.

End RenderKinds.

Lemma render_starts_music_witness :
  let m := final ((setMusic (Some 8) >> playMusic >> pauseMusic) Sample.level) in
  overlay (stage (final (sceneBuilders Sample.game m))) = None /\
  List.filter isMusicPlay (trace (render Sample.game 2 16%float m)) = [EMusicPlay 8].
Proof.
  split; [reflexivity|].
  exact (proj1 (render_starts_music Sample.game 2 16%float
    (final ((setMusic (Some 8) >> playMusic >> pauseMusic) Sample.level)) eq_refl)).
Defined.

Lemma clearOverlayScene_resumes_world_witness :
  let m := withStage (set_overlay (Some 9)) Sample.level in
  List.filter isOverlayRender (trace (render Sample.game 2 16%float m)) =
    [ESceneRender ROverlay 9 16%float] /\
  List.filter isOverlayRender
    (trace (render Sample.game 2 16%float (final (clearOverlayScene m)))) = [] /\
  count isAdvanceWorld
    (trace (render Sample.game 2 16%float (final (clearOverlayScene m)))) = 1.
Proof.
  pose proof (clearOverlayScene_resumes_world Sample.game 2 16%float
                (withStage (set_overlay (Some 9)) Sample.level) eq_refl eq_refl) as H.
  cbv zeta in H. destruct H as (H1 & H2 & _).
  exact (conj eq_refl (conj H1 H2)).
Defined.

(** ** The first frame of a level *)

Section FirstFrame.

Variable env : Env.

(** The first render call after onScreenChange, from a state with valid
    music and no overlay showing: whatever builders, timers, music and
    background colour the previous level left, the call sets the frame
    colour to white, reads the tilt, hands it to the new world and advances
    the physics; it plays no music, calls no builder and enters no endLevel;
    what follows is queued events, the camera and the four layers. *)
Theorem first_frame_after_onScreenChange (fuel : nat) (e : float) (m : Machine) :
  musicOk (stage m) = true ->
  overlay (stage m) = None ->
  let m1 := final (onScreenChange m) in
  let tilt := EHandleTilt (nextId m) (accelerometerX env) (accelerometerY env) in
  untilPhysics env e m1 =
    [ESetFrameColor 0xFFFFFF%float; EAccelerometerGet; EAccelerometerGet; tilt;
     EAdvanceWorld (world (stage (run env tilt m1))) (1 / 45)%float 8%float 3%float] /\
  (exists rest,
     trace (render env fuel e m1) = untilPhysics env e m1 ++ rest /\
     forallb queueOrDraw rest = true) /\
  List.filter isEnding (trace (render env fuel e m1)) = [] /\
  List.filter isMusicPlay (trace (render env fuel e m1)) = [].
Proof.
  intros Hok Hov m1 tilt.
  assert (Hm : musicPlaying (stage m) = true -> music (stage m) <> None).
  { unfold musicOk in Hok. intros Hp. rewrite Hp in Hok.
    destruct (music (stage m)); [discriminate|discriminate Hok]. }
  assert (Hm1 : m1 = mkMachine (resetStage (nextId m) (stage m)) (oneTimeEvents m)
                               (repeatEvents m) (4 + nextId m))
    by (unfold m1; rewrite (onScreenChange_eq m Hm); reflexivity).
  assert (Hsb : sceneBuilders env m1 = Ok tt m1 [])
    by (apply sceneBuilders_none; rewrite Hm1; reflexivity).
  assert (Ho : overlay (stage (final (sceneBuilders env m1))) = None)
    by (rewrite Hsb, Hm1; exact Hov).
  assert (Hu : untilPhysics env e m1 =
               [ESetFrameColor 0xFFFFFF%float; EAccelerometerGet; EAccelerometerGet;
                tilt;
                EAdvanceWorld (world (stage (run env tilt m1)))
                              (1 / 45)%float 8%float 3%float]).
  { rewrite Hm1. reflexivity. }
  assert (Hr : trace (render env fuel e m1) =
               untilPhysics env e m1 ++
               trace ((runOneTimeEvents env fuel >> runRepeatEvents env fuel >>
                       draw env e) (atOneTimeEvents env e m1))).
  { rewrite render_trace, Ho, Hsb. reflexivity. }
  split; [exact Hu|]. split; [|split].
  - eexists. split; [exact Hr|]. apply afterPhysics_draws.
  - rewrite Hr, List.filter_app, Hu.
    rewrite (filter_none isEnding queueOrDraw _ ltac:(other_kind)
               (afterPhysics_draws env fuel e _)).
    reflexivity.
  - rewrite Hr, List.filter_app, Hu.
    rewrite (filter_none isMusicPlay queueOrDraw _ ltac:(other_kind)
               (afterPhysics_draws env fuel e _)).
    reflexivity.
Qed.

End FirstFrame.

Lemma first_frame_after_onScreenChange_witness :
  let m := withLoseTimer 0.5%float
             (final ((setMusic (Some 8) >> playMusic >> setBackgroundColor 0%float >>
                      setLoseSceneBuilder (Some 13)) Sample.level)) in
  let m1 := final (onScreenChange m) in
  musicOk (stage m) = true /\
  untilPhysics Sample.game 600%float m1 =
    [ESetFrameColor 0xFFFFFF%float; EAccelerometerGet; EAccelerometerGet;
     EHandleTilt 4 0%float 0%float;
     EAdvanceWorld 4 (1 / 45)%float 8%float 3%float] /\
  List.filter isEnding (trace (render Sample.game 2 600%float m1)) = [].
Proof.
  pose proof (first_frame_after_onScreenChange Sample.game 2 600%float
    (withLoseTimer 0.5%float
       (final ((setMusic (Some 8) >> playMusic >> setBackgroundColor 0%float >>
                setLoseSceneBuilder (Some 13)) Sample.level)))
    eq_refl eq_refl) as H.
  cbv zeta in H. destruct H as (H1 & _ & H3 & _).
  exact (conj eq_refl (conj H1 H3)).
Defined.

(** ** A one-time event that queues itself *)

Section Requeue.

Variable env : Env.

Lemma replicate_snoc (n : nat) (c : Closure) :
  replicate n c ++ [c] = replicate (S n) c.
Proof. induction n as [|n IH]; simpl; [reflexivity|]. rewrite IH. reflexivity. Qed.

(** A loop over a queue that holds one handler, which adds itself to the
    queue whenever it runs, uses up every bound. *)
Lemma forOf_requeue (arr : Machine -> list Closure) (c : Closure) :
  (forall s, arr (run env (ERunEvent c) s) = arr s ++ [c]) ->
  forall (fuel i n : nat) (m : Machine),
    arr m = replicate n c ->
    i < n ->
    exists m', forOf env fuel arr i m =
               Stop OutOfFuel m' (replicate fuel (ERunEvent c)).
Proof.
  intros Hpush fuel. induction fuel as [|fuel IH]; intros i n m Hq Hi.
  - exists m. reflexivity.
  - simpl. rewrite Hq, (lookup_replicate_2 n c i Hi).
    destruct (IH (S i) (S n) (run env (ERunEvent c) m)) as [m' Hm'].
    + rewrite Hpush, Hq. apply replicate_snoc.
    + lia.
    + exists m'. unfold bind, call. rewrite Hm'. reflexivity.
Qed.

(** A one-time event that queues itself again each time it runs keeps the
    drain of the one-time queue from ending: on the world-update path, with
    nothing but such a handler in the queue after the physics advance,
    render does not return within any bound; it runs the handler again and
    again and never reaches the repeat events, the camera or the drawing. *)
Theorem render_hangs_on_requeue (fuel : nat) (e : float) (m : Machine)
  (c : Closure) (n : nat) :
  let m0 := final (sceneBuilders env m) in
  overlay (stage m0) = None ->
  let mq := atOneTimeEvents env e m0 in
  let w := world (stage mq) in
  oneTimeEventsOf w mq = replicate (S n) c ->
  (forall s, oneTimeEventsOf w (run env (ERunEvent c) s) =
             oneTimeEventsOf w s ++ [c]) ->
  returned (render env fuel e m) = false /\
  trace (render env fuel e m) =
    trace (sceneBuilders env m) ++ untilPhysics env e m0 ++
    replicate fuel (ERunEvent c).
Proof.
  intros m0 Ho mq w Hq Hpush.
  destruct (forOf_requeue (oneTimeEventsOf w) c Hpush fuel 0 (S n) mq Hq
              ltac:(lia)) as [m' Hm'].
  assert (Hr : render env fuel e m =
               Stop OutOfFuel m'
                    (trace (sceneBuilders env m) ++ untilPhysics env e m0 ++
                     replicate fuel (ERunEvent c))).
  { rewrite (render_world_eq env fuel e m Ho). fold m0. fold mq.
    unfold bind at 1. unfold runOneTimeEvents.
    unfold bind at 1. unfold this at 1. cbv beta iota. fold w.
    unfold bind at 1. rewrite Hm'. unfold prefix.
    rewrite <- app_assoc. reflexivity. }
  rewrite Hr. split; reflexivity.
Qed.

End Requeue.

Lemma render_hangs_on_requeue_witness :
  overlay (stage (final (sceneBuilders Sample.requeue (Sample.queued [7] [])))) = None /\
  returned (render Sample.requeue 50 16%float (Sample.queued [7] [])) = false /\
  trace (render Sample.requeue 3 16%float (Sample.queued [7] [])) =
    [ESetFrameColor 0xFFFFFF%float; EAccelerometerGet; EAccelerometerGet;
     EHandleTilt 0 0%float 0%float;
     EAdvanceWorld 0 (1 / 45)%float 8%float 3%float;
     ERunEvent 7; ERunEvent 7; ERunEvent 7].
Proof.
  assert (Hpush : forall s,
            oneTimeEventsOf 0 (run Sample.requeue (ERunEvent 7) s) =
            oneTimeEventsOf 0 s ++ [7]).
  { intros s. unfold oneTimeEventsOf. simpl. unfold Sample.enqueue. simpl.
    rewrite lookup_insert_eq. reflexivity. }
  split; [reflexivity|]. split.
  - exact (proj1 (render_hangs_on_requeue Sample.requeue 50 16%float
                    (Sample.queued [7] []) 7 0 eq_refl eq_refl Hpush)).
  - exact (proj2 (render_hangs_on_requeue Sample.requeue 3 16%float
                    (Sample.queued [7] []) 7 0 eq_refl eq_refl Hpush)).
Defined.

(** ** Both countdowns in one frame *)

Section BothCountdowns.

Variable env : Env.

Lemma filter_all (p : Event -> bool) (t : Trace) :
  forallb p t = true -> List.filter p t = t.
Proof.
  induction t as [|ev t IH]; simpl; [reflexivity|].
  intros H. apply andb_prop in H. destruct H as [Hp Ht].
  rewrite Hp, IH; auto.
Qed.

(** render does not stop after a level end.  When the lose countdown passes
    below zero with a lose-scene builder set, and in the state the lose
    builder returns in the win countdown passes below zero too with a
    win-scene builder set, one render call enters endLevel(false) and then
    endLevel(true): it constructs an overlay for the lose scene and calls
    the lose builder, then constructs a second overlay and calls the win
    builder in a state where that second overlay has replaced the first. *)
Theorem both_countdowns_fire (fuel : nat) (e : float) (m : Machine)
  (bl bw : Closure) :
  welcomeSceneBuilder (stage m) = None ->
  pauseSceneBuilder (stage m) = None ->
  overlay (stage m) = None ->
  let ml := atLoseTimer m in
  let lose := loseCountDownRemaining (score (stage ml)) in
  (lose =? sentinel)%float = false ->
  (lose - e / 1000 <? 0)%float = true ->
  loseSceneBuilder (stage ml) = Some bl ->
  let mw := atWinTimer env e m in
  let win := winCountRemaining (score (stage mw)) in
  (win =? sentinel)%float = false ->
  (win - e / 1000 <? 0)%float = true ->
  winSceneBuilder (stage mw) = Some bw ->
  List.filter isEnding (trace (render env fuel e m)) =
    [EEndLevel false; ENew OverlayScene (nextId ml); EBuilder bl (nextId ml);
     EEndLevel true; ENew OverlayScene (nextId mw); EBuilder bw (nextId mw)] /\
  mw = withStage (set_loseSceneBuilder None)
         (run env (EBuilder bl (nextId ml))
              (withNewOverlay (withLoseTimer (lose - e / 1000)%float ml))) /\
  atStopWatch env e m =
    withStage (set_winSceneBuilder None)
      (run env (EBuilder bw (nextId mw))
           (withNewOverlay (withWinTimer (win - e / 1000)%float mw))) /\
  overlay (stage (withNewOverlay (withWinTimer (win - e / 1000)%float mw))) =
    Some (nextId mw).
Proof.
  intros Hw Hp Hov ml lose Hl1 Hl2 Hlb mw win Hw1 Hw2 Hwb.
  assert (Hsb : sceneBuilders env m = Ok tt m [])
    by (apply sceneBuilders_none; assumption).
  assert (Ho : overlay (stage (final (sceneBuilders env m))) = None)
    by (rewrite Hsb; exact Hov).
  assert (HL : updateLoseTimer env e ml =
               Ok tt (withStage (set_loseSceneBuilder None)
                        (run env (EBuilder bl (nextId ml))
                             (withNewOverlay (withLoseTimer (lose - e / 1000)%float ml))))
                  [EEndLevel false; ENew OverlayScene (nextId ml);
                   EBuilder bl (nextId ml)]).
  { rewrite updateLoseTimer_eq. cbv zeta. fold lose. rewrite Hl1, Hl2.
    rewrite endLevel_eq.
    change (loseSceneBuilder (stage (withLoseTimer (lose - e / 1000)%float ml)))
      with (loseSceneBuilder (stage ml)).
    rewrite Hlb. reflexivity. }
  assert (Hmw : mw = withStage (set_loseSceneBuilder None)
                       (run env (EBuilder bl (nextId ml))
                            (withNewOverlay (withLoseTimer (lose - e / 1000)%float ml))))
    by (unfold mw, atWinTimer; fold ml; rewrite HL; reflexivity).
  assert (HW : updateWinTimer env e mw =
               Ok tt (withStage (set_winSceneBuilder None)
                        (run env (EBuilder bw (nextId mw))
                             (withNewOverlay (withWinTimer (win - e / 1000)%float mw))))
                  [EEndLevel true; ENew OverlayScene (nextId mw);
                   EBuilder bw (nextId mw)]).
  { rewrite updateWinTimer_eq. cbv zeta. fold win. rewrite Hw1, Hw2.
    rewrite endLevel_eq.
    change (winSceneBuilder (stage (withWinTimer (win - e / 1000)%float mw)))
      with (winSceneBuilder (stage mw)).
    rewrite Hwb. reflexivity. }
  split; [|split; [exact Hmw|split; [|reflexivity]]].
  - rewrite render_trace, Ho, Hsb. cbn [trace final app].
    rewrite List.filter_app.
    rewrite (filter_none isEnding queueOrDraw _ ltac:(other_kind)
               (afterPhysics_draws env fuel e _)).
    unfold untilPhysics. rewrite !List.filter_app.
    rewrite (playMusic_filter isEnding m) by reflexivity.
    fold ml. fold mw. rewrite HL, HW. reflexivity.
  - unfold atStopWatch. fold mw. rewrite HW. reflexivity.
Qed.

End BothCountdowns.

Lemma both_countdowns_fire_witness :
  let m := withStage (fun s => set_loseSceneBuilder (Some 13)
                                 (set_winSceneBuilder (Some 14)
                                    (set_score (mkScore 0.5%float 0.25%float sentinel) s)))
             Sample.level in
  List.filter isEnding (trace (render Sample.game 2 600%float m)) =
    [EEndLevel false; ENew OverlayScene 4; EBuilder 13 4;
     EEndLevel true; ENew OverlayScene 5; EBuilder 14 5] /\
  overlay (stage (final (render Sample.game 2 600%float m))) = Some 5.
Proof.
  split; [|reflexivity].
  exact (proj1 (both_countdowns_fire Sample.game 2 600%float
    (withStage (fun s => set_loseSceneBuilder (Some 13)
                           (set_winSceneBuilder (Some 14)
                              (set_score (mkScore 0.5%float 0.25%float sentinel) s)))
       Sample.level)
    13 14 eq_refl eq_refl eq_refl eq_refl eq_refl eq_refl eq_refl eq_refl eq_refl)).
Defined.

(** ** Handlers that push events while the queue is drained *)

Section AppendOnly.

Variable env : Env.



End AppendOnly.

